(** * Open-AutoGLM-WebUI: response decoder, device discovery, step streaming

    A shallow embedding of
    - [phone_agent/model/client.py]  ([ModelClient._parse_response]),
    - [phone_agent/adb/scanner.py]   ([get_local_ip], [get_arp_ips],
      [check_port], [scan_network]),
    - [web_server.py]                ([websocket_endpoint]),
    and the properties of the specification that these functions decide. *)

From Stdlib Require Import ZArith NArith QArith Ascii String Lia Bool.
From Stdlib Require Import DecimalString.
From stdpp Require Import base gmap sets list.

Local Open Scope Z_scope.

(* ===================================================================== *)
(** * Python values shared by the three modules *)
(* ===================================================================== *)

(** A Python [str] is a sequence of Unicode code points. *)
Abbreviation char := N (only parsing).
Abbreviation str := (list N) (only parsing).

(** A string literal of the source ([lit "do("] is ['do(']). *)
Definition lit (s : string) : str :=
  map N_of_ascii (list_ascii_of_string s).

(** The exception classes that occur in the embedded code. *)
Inductive exn : Type :=
  | IndexError
  | ValueError
  | OverflowError
  | OSError
  | NameError (name : string)
  | WebSocketDisconnect
  | Exception (message : str).

(** A Python [float]: a finite number, an infinity or a NaN. A rational
    stands for the finite float it is written as. *)
Inductive pyfloat : Type :=
  | Finite (q : Q)
  | Inf
  | NegInf
  | NaN.
Coercion Finite : Q >-> pyfloat.
Bind Scope Q_scope with pyfloat.

(** A computation that returns or raises. *)
Inductive res (A : Type) : Type :=
  | Ok (a : A)
  | Raise (e : exn).
Arguments Ok {A} a.
Arguments Raise {A} e.

Definition bind {A B : Type} (m : res A) (k : A -> res B) : res B :=
  match m with
  | Ok a => k a
  | Raise e => Raise e
  end.

Declare Scope res_scope.
Delimit Scope res_scope with res.
Notation "x <- m ;;; k" := (bind m (fun x => k))
  (at level 100, m at next level, right associativity) : res_scope.

(* ===================================================================== *)
(** * The [str] builtins used by the sources *)
(* ===================================================================== *)

Module Py.

(** [str.isspace] on one code point (CPython's [Py_UNICODE_ISSPACE]):
    U+0009..000D, U+001C..0020, U+0085, U+00A0, U+1680, U+2000..200A,
    U+2028, U+2029, U+202F, U+205F, U+3000. *)
Definition isspace (c : char) : bool :=
  (((9 <=? c) && (c <=? 13)) || ((28 <=? c) && (c <=? 32))
   || (c =? 133) || (c =? 160) || (c =? 5760)
   || ((8192 <=? c) && (c <=? 8202))
   || (c =? 8232) || (c =? 8233) || (c =? 8239) || (c =? 8287)
   || (c =? 12288))%N.

(** [s.lstrip()] *)
Fixpoint lstrip (s : str) : str :=
  match s with
  | [] => []
  | c :: s' => if isspace c then lstrip s' else s
  end.

(** [s.rstrip()] *)
Fixpoint rstrip (s : str) : str :=
  match s with
  | [] => []
  | c :: s' =>
      match rstrip s' with
      | [] => if isspace c then [] else [c]
      | r => c :: r
      end
  end.

(** [s.strip()] *)
Definition strip (s : str) : str := lstrip (rstrip s).

(** [s.startswith(prefix)] *)
Fixpoint startswith (s prefix : str) : bool :=
  match prefix, s with
  | [], _ => true
  | _ :: _, [] => false
  | p :: prefix', c :: s' => (c =? p)%N && startswith s' prefix'
  end.

(** [s.find(sub)]: the lowest index at which [sub] occurs, [-1] if none. *)
Fixpoint find_from (i : Z) (s sub : str) : Z :=
  if startswith s sub then i
  else match s with
       | [] => -1
       | _ :: s' => find_from (i + 1) s' sub
       end.

Definition find (s sub : str) : Z := find_from 0 s sub.

(** [sub in s] *)
Definition contains (sub s : str) : bool := negb (find s sub =? -1).

(** [s[:k]] and [s[k:]] for an index [0 <= k]. *)
Definition slice_to (s : str) (k : Z) : str := take (Z.to_nat k) s.
Definition slice_from (s : str) (k : Z) : str := drop (Z.to_nat k) s.

(** [s.split(sep, 1)]: at most one split, at the first occurrence. *)
Definition split_1 (s sep : str) : list str :=
  let i := find s sep in
  if i =? -1 then [s]
  else [slice_to s i; slice_from s (i + Z.of_nat (length sep))].

(** [s.split(sep)] for a non-empty [sep]: the occurrences are taken left to
    right and do not overlap; [skip] counts the characters of the current
    occurrence still to be passed over. *)
Fixpoint split_go (sep : str) (skip : nat) (cur : str) (s : str) : list str :=
  match s with
  | [] => [rev cur]
  | c :: s' =>
      match skip with
      | S k => split_go sep k cur s'
      | O =>
          if startswith s sep
          then rev cur :: split_go sep (length sep - 1) [] s'
          else split_go sep 0 (c :: cur) s'
      end
  end.

Definition split (s sep : str) : list str := split_go sep 0 [] s.

(** [sep.join(parts)] *)
Fixpoint join (sep : str) (parts : list str) : str :=
  match parts with
  | [] => []
  | [p] => p
  | p :: ps => p ++ sep ++ join sep ps
  end.

(** [s.replace(old, new)]: every occurrence, left to right, no overlap. *)
Fixpoint replace_go (old new : str) (skip : nat) (s : str) : str :=
  match s with
  | [] => []
  | c :: s' =>
      match skip with
      | S k => replace_go old new k s'
      | O =>
          if startswith s old
          then new ++ replace_go old new (length old - 1) s'
          else c :: replace_go old new 0 s'
      end
  end.

Definition replace (s old new : str) : str :=
  match old with
  | [] => new ++ flat_map (fun c => c :: new) s
  | _ :: _ => replace_go old new 0 s
  end.

(** [parts[i]] *)
Definition getitem {A : Type} (l : list A) (i : nat) : res A :=
  match nth_error l i with
  | Some x => Ok x
  | None => Raise IndexError
  end.

(** [str(i)] for a non-negative integer: its decimal digits. *)
Definition str_of_nat (n : nat) : str :=
  lit (NilEmpty.string_of_uint (Nat.to_uint n)).

(** Truthiness of a [str] or a [list]: empty is false. *)
Definition truthy {A : Type} (s : list A) : bool :=
  match s with
  | [] => false
  | _ :: _ => true
  end.

(** [a == b] on strings. *)
Fixpoint str_eqb (a b : str) : bool :=
  match a, b with
  | [], [] => true
  | x :: a', y :: b' => (x =? y)%N && str_eqb a' b'
  | _, _ => false
  end.

(** [x in l] for a list of strings. *)
Definition str_in (x : str) (l : list str) : bool := existsb (str_eqb x) l.

(** [l[:-1]] *)
Definition all_but_last {A : Type} (l : list A) : list A := removelast l.

(** ** Notions used to state properties of the builtins *)

(** A string is trimmed when neither end is a whitespace character. *)
Definition trimmed (s : str) : Prop :=
  (forall c, head s = Some c -> isspace c = false) /\
  (forall c, last s = Some c -> isspace c = false).

(** The index of the first occurrence, as a natural number. *)
Fixpoint first_occ (s sub : str) : option nat :=
  if startswith s sub then Some 0%nat
  else match s with
       | [] => None
       | _ :: s' => S <$> first_occ s' sub
       end.

End Py.

(* ===================================================================== *)
(** * phone_agent/model/client.py *)
(* ===================================================================== *)

Module Client.
Import Py.
Local Open Scope res_scope.

Definition ANSWER_OPEN : str := lit "<answer>".
Definition ANSWER_CLOSE : str := lit "</answer>".
Definition THINK_OPEN : str := lit "<think>".
Definition THINK_CLOSE : str := lit "</think>".

Definition action_markers : list str :=
  [lit "{action="; lit "do("; lit "finish("].

(** The loop over [action_markers]: keep the smallest position found. *)
Definition first_marker (content : str) : Z :=
  fold_left
    (fun first_marker_pos marker =>
       let pos := find content marker in
       if negb (pos =? -1) && (pos <? first_marker_pos)
       then pos else first_marker_pos)
    action_markers
    (Z.of_nat (length content)).

(** [ModelClient._parse_response]: the pair (thinking, action). *)
Definition parse_response (content : str) : res (str * str) :=
  let content := strip content in
  (* Case 1: Standard format with <answer> tag *)
  if contains ANSWER_OPEN content then
    let parts := split_1 content ANSWER_OPEN in
    p0 <- getitem parts 0 ;;;
    p1 <- getitem parts 1 ;;;
    let thinking := strip (replace (replace p0 THINK_OPEN []) THINK_CLOSE []) in
    let action := strip (replace p1 ANSWER_CLOSE []) in
    Ok (thinking, action)
  (* Case 2: No <answer> tag, but has <think> tag *)
  else if contains THINK_OPEN content && contains THINK_CLOSE content then
    let parts := split_1 content THINK_CLOSE in
    p0 <- getitem parts 0 ;;;
    p1 <- getitem parts 1 ;;;
    let thinking := strip (replace p0 THINK_OPEN []) in
    let action := strip p1 in
    Ok (thinking, action)
  else
    (* Case 3: No tags, try to find action pattern *)
    let first_marker_pos := first_marker content in
    if first_marker_pos <? Z.of_nat (length content) then
      let thinking := strip (slice_to content first_marker_pos) in
      let action := strip (slice_from content first_marker_pos) in
      Ok (thinking, action)
    (* Case 4: Fallback *)
    else if startswith content (lit "{") || startswith content (lit "do(")
            || startswith content (lit "finish(") then
      Ok ([], content)
    else
      Ok (content, []).

End Client.


(** The priority-1 rule read literally from its description: split at the
    first occurrence of the answer delimiter, take out the rationale markers
    before it and the answer-close marker after it, and nothing else. *)
Module ClientSpec.
Import Py Client.

Definition answer_rule_literal (content : str) : str * str :=
  let i := find content ANSWER_OPEN in
  (replace (replace (slice_to content i) THINK_OPEN []) THINK_CLOSE [],
   replace (slice_from content (i + Z.of_nat (length ANSWER_OPEN)))
           ANSWER_CLOSE []).

End ClientSpec.

(* ===================================================================== *)
(** * phone_agent/adb/scanner.py *)
(* ===================================================================== *)

Module Scanner.
Import Py.

(** ** The pattern [\b(?:\d{1,3}\.){3}\d{1,3}\b]

    The pattern is a [str] pattern, so [\d], [\w] and [\b] are taken on
    Unicode: [\d] is a decimal digit of any script and [\w] an alphanumeric
    character of any script or the underscore (Unicode 14.0, the tables of
    CPython 3.11). *)

(** The code points of the decimal digits ([str.isdecimal], category Nd), as
    inclusive ranges. *)
Definition decimal_ranges : list (N * N) :=
  [(48, 57); (1632, 1641); (1776, 1785); (1984, 1993); (2406, 2415);
   (2534, 2543); (2662, 2671); (2790, 2799); (2918, 2927); (3046, 3055);
   (3174, 3183); (3302, 3311); (3430, 3439); (3558, 3567); (3664, 3673);
   (3792, 3801); (3872, 3881); (4160, 4169); (4240, 4249); (6112, 6121);
   (6160, 6169); (6470, 6479); (6608, 6617); (6784, 6793); (6800, 6809);
   (6992, 7001); (7088, 7097); (7232, 7241); (7248, 7257); (42528, 42537);
   (43216, 43225); (43264, 43273); (43472, 43481); (43504, 43513);
   (43600, 43609); (44016, 44025); (65296, 65305); (66720, 66729);
   (68912, 68921); (69734, 69743); (69872, 69881); (69942, 69951);
   (70096, 70105); (70384, 70393); (70736, 70745); (70864, 70873);
   (71248, 71257); (71360, 71369); (71472, 71481); (71904, 71913);
   (72016, 72025); (72784, 72793); (73040, 73049); (73120, 73129);
   (92768, 92777); (92864, 92873); (93008, 93017); (120782, 120831);
   (123200, 123209); (123632, 123641); (125264, 125273); (130032, 130041)]%N.

(** The code points [\w] matches: the alphanumeric ones ([str.isalnum]) and
    the underscore, as inclusive ranges. *)
Definition word_ranges : list (N * N) :=
  [(48, 57); (65, 90); (95, 95); (97, 122); (170, 170); (178, 179);
   (181, 181); (185, 186); (188, 190); (192, 214); (216, 246); (248, 705);
   (710, 721); (736, 740); (748, 748); (750, 750); (880, 884); (886, 887);
   (890, 893); (895, 895); (902, 902); (904, 906); (908, 908); (910, 929);
   (931, 1013); (1015, 1153); (1162, 1327); (1329, 1366); (1369, 1369);
   (1376, 1416); (1488, 1514); (1519, 1522); (1568, 1610); (1632, 1641);
   (1646, 1647); (1649, 1747); (1749, 1749); (1765, 1766); (1774, 1788);
   (1791, 1791); (1808, 1808); (1810, 1839); (1869, 1957); (1969, 1969);
   (1984, 2026); (2036, 2037); (2042, 2042); (2048, 2069); (2074, 2074);
   (2084, 2084); (2088, 2088); (2112, 2136); (2144, 2154); (2160, 2183);
   (2185, 2190); (2208, 2249); (2308, 2361); (2365, 2365); (2384, 2384);
   (2392, 2401); (2406, 2415); (2417, 2432); (2437, 2444); (2447, 2448);
   (2451, 2472); (2474, 2480); (2482, 2482); (2486, 2489); (2493, 2493);
   (2510, 2510); (2524, 2525); (2527, 2529); (2534, 2545); (2548, 2553);
   (2556, 2556); (2565, 2570); (2575, 2576); (2579, 2600); (2602, 2608);
   (2610, 2611); (2613, 2614); (2616, 2617); (2649, 2652); (2654, 2654);
   (2662, 2671); (2674, 2676); (2693, 2701); (2703, 2705); (2707, 2728);
   (2730, 2736); (2738, 2739); (2741, 2745); (2749, 2749); (2768, 2768);
   (2784, 2785); (2790, 2799); (2809, 2809); (2821, 2828); (2831, 2832);
   (2835, 2856); (2858, 2864); (2866, 2867); (2869, 2873); (2877, 2877);
   (2908, 2909); (2911, 2913); (2918, 2927); (2929, 2935); (2947, 2947);
   (2949, 2954); (2958, 2960); (2962, 2965); (2969, 2970); (2972, 2972);
   (2974, 2975); (2979, 2980); (2984, 2986); (2990, 3001); (3024, 3024);
   (3046, 3058); (3077, 3084); (3086, 3088); (3090, 3112); (3114, 3129);
   (3133, 3133); (3160, 3162); (3165, 3165); (3168, 3169); (3174, 3183);
   (3192, 3198); (3200, 3200); (3205, 3212); (3214, 3216); (3218, 3240);
   (3242, 3251); (3253, 3257); (3261, 3261); (3293, 3294); (3296, 3297);
   (3302, 3311); (3313, 3314); (3332, 3340); (3342, 3344); (3346, 3386);
   (3389, 3389); (3406, 3406); (3412, 3414); (3416, 3425); (3430, 3448);
   (3450, 3455); (3461, 3478); (3482, 3505); (3507, 3515); (3517, 3517);
   (3520, 3526); (3558, 3567); (3585, 3632); (3634, 3635); (3648, 3654);
   (3664, 3673); (3713, 3714); (3716, 3716); (3718, 3722); (3724, 3747);
   (3749, 3749); (3751, 3760); (3762, 3763); (3773, 3773); (3776, 3780);
   (3782, 3782); (3792, 3801); (3804, 3807); (3840, 3840); (3872, 3891);
   (3904, 3911); (3913, 3948); (3976, 3980); (4096, 4138); (4159, 4169);
   (4176, 4181); (4186, 4189); (4193, 4193); (4197, 4198); (4206, 4208);
   (4213, 4225); (4238, 4238); (4240, 4249); (4256, 4293); (4295, 4295);
   (4301, 4301); (4304, 4346); (4348, 4680); (4682, 4685); (4688, 4694);
   (4696, 4696); (4698, 4701); (4704, 4744); (4746, 4749); (4752, 4784);
   (4786, 4789); (4792, 4798); (4800, 4800); (4802, 4805); (4808, 4822);
   (4824, 4880); (4882, 4885); (4888, 4954); (4969, 4988); (4992, 5007);
   (5024, 5109); (5112, 5117); (5121, 5740); (5743, 5759); (5761, 5786);
   (5792, 5866); (5870, 5880); (5888, 5905); (5919, 5937); (5952, 5969);
   (5984, 5996); (5998, 6000); (6016, 6067); (6103, 6103); (6108, 6108);
   (6112, 6121); (6128, 6137); (6160, 6169); (6176, 6264); (6272, 6276);
   (6279, 6312); (6314, 6314); (6320, 6389); (6400, 6430); (6470, 6509);
   (6512, 6516); (6528, 6571); (6576, 6601); (6608, 6618); (6656, 6678);
   (6688, 6740); (6784, 6793); (6800, 6809); (6823, 6823); (6917, 6963);
   (6981, 6988); (6992, 7001); (7043, 7072); (7086, 7141); (7168, 7203);
   (7232, 7241); (7245, 7293); (7296, 7304); (7312, 7354); (7357, 7359);
   (7401, 7404); (7406, 7411); (7413, 7414); (7418, 7418); (7424, 7615);
   (7680, 7957); (7960, 7965); (7968, 8005); (8008, 8013); (8016, 8023);
   (8025, 8025); (8027, 8027); (8029, 8029); (8031, 8061); (8064, 8116);
   (8118, 8124); (8126, 8126); (8130, 8132); (8134, 8140); (8144, 8147);
   (8150, 8155); (8160, 8172); (8178, 8180); (8182, 8188); (8304, 8305);
   (8308, 8313); (8319, 8329); (8336, 8348); (8450, 8450); (8455, 8455);
   (8458, 8467); (8469, 8469); (8473, 8477); (8484, 8484); (8486, 8486);
   (8488, 8488); (8490, 8493); (8495, 8505); (8508, 8511); (8517, 8521);
   (8526, 8526); (8528, 8585); (9312, 9371); (9450, 9471); (10102, 10131);
   (11264, 11492); (11499, 11502); (11506, 11507); (11517, 11517);
   (11520, 11557); (11559, 11559); (11565, 11565); (11568, 11623);
   (11631, 11631); (11648, 11670); (11680, 11686); (11688, 11694);
   (11696, 11702); (11704, 11710); (11712, 11718); (11720, 11726);
   (11728, 11734); (11736, 11742); (11823, 11823); (12293, 12295);
   (12321, 12329); (12337, 12341); (12344, 12348); (12353, 12438);
   (12445, 12447); (12449, 12538); (12540, 12543); (12549, 12591);
   (12593, 12686); (12690, 12693); (12704, 12735); (12784, 12799);
   (12832, 12841); (12872, 12879); (12881, 12895); (12928, 12937);
   (12977, 12991); (13312, 19903); (19968, 42124); (42192, 42237);
   (42240, 42508); (42512, 42539); (42560, 42606); (42623, 42653);
   (42656, 42735); (42775, 42783); (42786, 42888); (42891, 42954);
   (42960, 42961); (42963, 42963); (42965, 42969); (42994, 43009);
   (43011, 43013); (43015, 43018); (43020, 43042); (43056, 43061);
   (43072, 43123); (43138, 43187); (43216, 43225); (43250, 43255);
   (43259, 43259); (43261, 43262); (43264, 43301); (43312, 43334);
   (43360, 43388); (43396, 43442); (43471, 43481); (43488, 43492);
   (43494, 43518); (43520, 43560); (43584, 43586); (43588, 43595);
   (43600, 43609); (43616, 43638); (43642, 43642); (43646, 43695);
   (43697, 43697); (43701, 43702); (43705, 43709); (43712, 43712);
   (43714, 43714); (43739, 43741); (43744, 43754); (43762, 43764);
   (43777, 43782); (43785, 43790); (43793, 43798); (43808, 43814);
   (43816, 43822); (43824, 43866); (43868, 43881); (43888, 44002);
   (44016, 44025); (44032, 55203); (55216, 55238); (55243, 55291);
   (63744, 64109); (64112, 64217); (64256, 64262); (64275, 64279);
   (64285, 64285); (64287, 64296); (64298, 64310); (64312, 64316);
   (64318, 64318); (64320, 64321); (64323, 64324); (64326, 64433);
   (64467, 64829); (64848, 64911); (64914, 64967); (65008, 65019);
   (65136, 65140); (65142, 65276); (65296, 65305); (65313, 65338);
   (65345, 65370); (65382, 65470); (65474, 65479); (65482, 65487);
   (65490, 65495); (65498, 65500); (65536, 65547); (65549, 65574);
   (65576, 65594); (65596, 65597); (65599, 65613); (65616, 65629);
   (65664, 65786); (65799, 65843); (65856, 65912); (65930, 65931);
   (66176, 66204); (66208, 66256); (66273, 66299); (66304, 66339);
   (66349, 66378); (66384, 66421); (66432, 66461); (66464, 66499);
   (66504, 66511); (66513, 66517); (66560, 66717); (66720, 66729);
   (66736, 66771); (66776, 66811); (66816, 66855); (66864, 66915);
   (66928, 66938); (66940, 66954); (66956, 66962); (66964, 66965);
   (66967, 66977); (66979, 66993); (66995, 67001); (67003, 67004);
   (67072, 67382); (67392, 67413); (67424, 67431); (67456, 67461);
   (67463, 67504); (67506, 67514); (67584, 67589); (67592, 67592);
   (67594, 67637); (67639, 67640); (67644, 67644); (67647, 67669);
   (67672, 67702); (67705, 67742); (67751, 67759); (67808, 67826);
   (67828, 67829); (67835, 67867); (67872, 67897); (67968, 68023);
   (68028, 68047); (68050, 68096); (68112, 68115); (68117, 68119);
   (68121, 68149); (68160, 68168); (68192, 68222); (68224, 68255);
   (68288, 68295); (68297, 68324); (68331, 68335); (68352, 68405);
   (68416, 68437); (68440, 68466); (68472, 68497); (68521, 68527);
   (68608, 68680); (68736, 68786); (68800, 68850); (68858, 68899);
   (68912, 68921); (69216, 69246); (69248, 69289); (69296, 69297);
   (69376, 69415); (69424, 69445); (69457, 69460); (69488, 69505);
   (69552, 69579); (69600, 69622); (69635, 69687); (69714, 69743);
   (69745, 69746); (69749, 69749); (69763, 69807); (69840, 69864);
   (69872, 69881); (69891, 69926); (69942, 69951); (69956, 69956);
   (69959, 69959); (69968, 70002); (70006, 70006); (70019, 70066);
   (70081, 70084); (70096, 70106); (70108, 70108); (70113, 70132);
   (70144, 70161); (70163, 70187); (70272, 70278); (70280, 70280);
   (70282, 70285); (70287, 70301); (70303, 70312); (70320, 70366);
   (70384, 70393); (70405, 70412); (70415, 70416); (70419, 70440);
   (70442, 70448); (70450, 70451); (70453, 70457); (70461, 70461);
   (70480, 70480); (70493, 70497); (70656, 70708); (70727, 70730);
   (70736, 70745); (70751, 70753); (70784, 70831); (70852, 70853);
   (70855, 70855); (70864, 70873); (71040, 71086); (71128, 71131);
   (71168, 71215); (71236, 71236); (71248, 71257); (71296, 71338);
   (71352, 71352); (71360, 71369); (71424, 71450); (71472, 71483);
   (71488, 71494); (71680, 71723); (71840, 71922); (71935, 71942);
   (71945, 71945); (71948, 71955); (71957, 71958); (71960, 71983);
   (71999, 71999); (72001, 72001); (72016, 72025); (72096, 72103);
   (72106, 72144); (72161, 72161); (72163, 72163); (72192, 72192);
   (72203, 72242); (72250, 72250); (72272, 72272); (72284, 72329);
   (72349, 72349); (72368, 72440); (72704, 72712); (72714, 72750);
   (72768, 72768); (72784, 72812); (72818, 72847); (72960, 72966);
   (72968, 72969); (72971, 73008); (73030, 73030); (73040, 73049);
   (73056, 73061); (73063, 73064); (73066, 73097); (73112, 73112);
   (73120, 73129); (73440, 73458); (73648, 73648); (73664, 73684);
   (73728, 74649); (74752, 74862); (74880, 75075); (77712, 77808);
   (77824, 78894); (82944, 83526); (92160, 92728); (92736, 92766);
   (92768, 92777); (92784, 92862); (92864, 92873); (92880, 92909);
   (92928, 92975); (92992, 92995); (93008, 93017); (93019, 93025);
   (93027, 93047); (93053, 93071); (93760, 93846); (93952, 94026);
   (94032, 94032); (94099, 94111); (94176, 94177); (94179, 94179);
   (94208, 100343); (100352, 101589); (101632, 101640); (110576, 110579);
   (110581, 110587); (110589, 110590); (110592, 110882); (110928, 110930);
   (110948, 110951); (110960, 111355); (113664, 113770); (113776, 113788);
   (113792, 113800); (113808, 113817); (119520, 119539); (119648, 119672);
   (119808, 119892); (119894, 119964); (119966, 119967); (119970, 119970);
   (119973, 119974); (119977, 119980); (119982, 119993); (119995, 119995);
   (119997, 120003); (120005, 120069); (120071, 120074); (120077, 120084);
   (120086, 120092); (120094, 120121); (120123, 120126); (120128, 120132);
   (120134, 120134); (120138, 120144); (120146, 120485); (120488, 120512);
   (120514, 120538); (120540, 120570); (120572, 120596); (120598, 120628);
   (120630, 120654); (120656, 120686); (120688, 120712); (120714, 120744);
   (120746, 120770); (120772, 120779); (120782, 120831); (122624, 122654);
   (123136, 123180); (123191, 123197); (123200, 123209); (123214, 123214);
   (123536, 123565); (123584, 123627); (123632, 123641); (124896, 124902);
   (124904, 124907); (124909, 124910); (124912, 124926); (124928, 125124);
   (125127, 125135); (125184, 125251); (125259, 125259); (125264, 125273);
   (126065, 126123); (126125, 126127); (126129, 126132); (126209, 126253);
   (126255, 126269); (126464, 126467); (126469, 126495); (126497, 126498);
   (126500, 126500); (126503, 126503); (126505, 126514); (126516, 126519);
   (126521, 126521); (126523, 126523); (126530, 126530); (126535, 126535);
   (126537, 126537); (126539, 126539); (126541, 126543); (126545, 126546);
   (126548, 126548); (126551, 126551); (126553, 126553); (126555, 126555);
   (126557, 126557); (126559, 126559); (126561, 126562); (126564, 126564);
   (126567, 126570); (126572, 126578); (126580, 126583); (126585, 126588);
   (126590, 126590); (126592, 126601); (126603, 126619); (126625, 126627);
   (126629, 126633); (126635, 126651); (127232, 127244); (130032, 130041);
   (131072, 173791); (173824, 177976); (177984, 178205); (178208, 183969);
   (183984, 191456); (194560, 195101); (196608, 201546)]%N.

Definition in_ranges (ranges : list (N * N)) (c : char) : bool :=
  existsb (fun r => (r.1 <=? c) && (c <=? r.2))%N ranges.

(** [\d] *)
Definition isdigit (c : char) : bool := in_ranges decimal_ranges c.

(** [\w] *)
Definition isword (c : char) : bool := in_ranges word_ranges c.

(** [\d{1,3}], greedy: the longest run of at most [n] digits and the rest. *)
Fixpoint digits (n : nat) (s : str) : str * str :=
  match n, s with
  | S n', c :: s' =>
      if isdigit c
      then let '(d, r) := digits n' s' in (c :: d, r)
      else ([], s)
  | _, _ => ([], s)
  end.

Definition octet (s : str) : option (str * str) :=
  let '(d, r) := digits 3 s in
  if truthy d then Some (d, r) else None.

Definition dot (s : str) : option str :=
  match s with
  | c :: r => if (c =? 46)%N then Some r else None
  | [] => None
  end.

(** A word boundary after a digit: the end of the text or a non-word
    character. *)
Definition boundary_after (r : str) : bool :=
  match r with
  | [] => true
  | c :: _ => negb (isword c)
  end.

(** The pattern matched at the head of [s], the leading [\b] apart: the
    matched text and what follows it. A shorter run of digits never lets the
    match go on where the longest one does not (what follows a shorter run is
    a digit, which is a word character: neither a dot nor a boundary), so
    greedy matching needs no backtracking here. *)
Definition match_ip (s : str) : option (str * str) :=
  '(o1, r) ← octet s; r ← dot r;
  '(o2, r) ← octet r; r ← dot r;
  '(o3, r) ← octet r; r ← dot r;
  '(o4, r) ← octet r;
  if boundary_after r
  then Some (o1 ++ [46%N] ++ o2 ++ [46%N] ++ o3 ++ [46%N] ++ o4, r)
  else None.

(** [re.findall]: the matches left to right, without overlap. [prev_word]
    tells whether the character before the head is a word character and
    [skip] counts the characters of the current match still to pass. *)
Fixpoint findall_go (prev_word : bool) (skip : nat) (s : str) : list str :=
  match s with
  | [] => []
  | c :: s' =>
      match skip with
      | S k => findall_go (isword c) k s'
      | O =>
          if prev_word then findall_go (isword c) 0 s'
          else match match_ip s with
               | Some (m, _) => m :: findall_go (isword c) (length m - 1) s'
               | None => findall_go (isword c) 0 s'
               end
      end
  end.

Definition findall_ip (output : str) : list str := findall_go false 0 output.

(** ** The host the scan runs on *)

(** What [sock.connect_ex] does: return an error code (0: accepted) or
    raise. *)
Inductive connect_result : Type :=
  | Errno (code : Z)
  | ConnectRaises.

Record host : Type := {
  (** [getsockname()[0]] of the datagram socket connected towards 8.8.8.8;
      [None] when one of the socket calls raises *)
  sockname : option str;
  (** the output of [arp -a]; [None] when [check_output] raises *)
  arp_a : option str;
  (** [socket.socket(AF_INET, SOCK_STREAM)] in the probe of the given
      address: returns, or raises ([OSError] when the process has no file
      descriptor left) *)
  new_socket : str -> res unit;
  (** [sock.settimeout(timeout)] on this platform: returns, or raises
      ([ValueError] on a negative timeout or a NaN, [OverflowError] on a
      timeout that does not fit the platform's C time types) *)
  settimeout : pyfloat -> res unit;
  (** [connect_ex((ip, port))] on a stream socket with the given timeout *)
  connect_ex : str -> Z -> pyfloat -> connect_result
}.

Definition LOOPBACK : str := lit "127.0.0.1".
Definition DOT : str := lit ".".

Definition get_local_ip (h : host) : str :=
  match sockname h with
  | Some ip => ip
  | None => LOOPBACK
  end.

(** [".".join(local_ip.split(".")[:-1])] *)
Definition subnet_of (local_ip : str) : str :=
  join DOT (all_but_last (split local_ip DOT)).

(** The loop of [get_arp_ips] over [found], and [list(ips)]. *)
Definition arp_candidates (local_ip : str) (found : list str) : list str :=
  let subnet_prefix := subnet_of local_ip in
  let ips : gset str :=
    foldl (fun ips ip =>
             if startswith ip subnet_prefix && negb (str_eqb ip local_ip)
             then ips ∪ {[ ip ]} else ips)
          ∅ found in
  elements ips.

Definition get_arp_ips (h : host) : list str :=
  match arp_a h with
  | Some output => arp_candidates (get_local_ip h) (findall_ip output)
  | None => elements (∅ : gset str)
  end.

(** [socket.socket(...)] and [sock.settimeout(timeout)] stand before the
    [try]: what they raise leaves [check_port]. What [connect_ex] raises is
    swallowed. *)
Definition check_port (h : host) (ip : str) (port : Z) (timeout : pyfloat)
  : res (option str) :=
  (_ <- new_socket h ip ;;;
   _ <- settimeout h timeout ;;;
   match connect_ex h ip port timeout with
   | Errno 0 => Ok (Some ip)
   | Errno _ => Ok None
   | ConnectRaises => Ok None
   end)%res.

(** ** The scan, with the record of what it queried and probed *)

Inductive phase : Type := Fast | Slow.

Inductive event : Type :=
  | NeighborCache (candidates : list str)
  | Probe (ph : phase) (ip : str).

Definition scan (A : Type) : Type := (res A * list event)%type.

Definition sret {A : Type} (a : A) : scan A := (Ok a, []).

Definition sbind {A B : Type} (m : scan A) (k : A -> scan B) : scan B :=
  match m with
  | (Ok a, l) => let '(r, l') := k a in (r, l ++ l')
  | (Raise e, l) => (Raise e, l)
  end.

Definition tell (e : event) : scan unit := (Ok tt, [e]).

Declare Scope scan_scope.
Delimit Scope scan_scope with scan.
Notation "x <~ m ;;; k" := (sbind m (fun x => k))
  (at level 100, m at next level, right associativity) : scan_scope.

(** [if result: found_ips.append(result)] *)
Definition append_result (found_ips : list str) (result : option str)
  : list str :=
  match result with
  | Some ip => if truthy ip then found_ips ++ [ip] else found_ips
  | None => found_ips
  end.

(** [for future in futures: result = future.result(); ...]: the results are
    read in submission order, and the first probe that raised raises here. *)
Fixpoint collect (results : list (res (option str))) (found_ips : list str)
  : res (list str) :=
  match results with
  | [] => Ok found_ips
  | Ok result :: rest => collect rest (append_result found_ips result)
  | Raise e :: _ => Raise e
  end.

(** [with ThreadPoolExecutor(max_workers=...) as executor: ...]: the
    constructor raises [ValueError] unless [max_workers > 0]; every submitted
    probe runs before the block is left. *)
Definition probe_all (h : host) (ph : phase) (max_workers : Z)
    (ips : list str) (port : Z) (timeout : pyfloat) (found_ips : list str)
  : scan (list str) :=
  if max_workers <=? 0 then (Raise ValueError, [])
  else (collect (map (fun ip => check_port h ip port timeout) ips) found_ips,
        map (Probe ph) ips).

(** [[f"{subnet}.{i}" for i in range(1, 255)]] *)
Definition subnet_hosts (subnet : str) : list str :=
  map (fun i => subnet ++ DOT ++ str_of_nat i) (seq 1 254).

Definition scan_network (h : host) (port : Z) (timeout : pyfloat)
    (max_workers : Z) : scan (list str) :=
  let local_ip := get_local_ip h in
  if str_eqb local_ip LOOPBACK then sret []
  else
    let found_ips : list str := [] in
    (* 1. Fast path: Scan ARP cache first *)
    let arp_ips := get_arp_ips h in
    (_ <~ tell (NeighborCache arp_ips) ;;;
     found_ips <~ (if truthy arp_ips
                   then probe_all h Fast (Z.of_nat (length arp_ips) + 1)
                                  arp_ips port timeout found_ips
                   else sret found_ips) ;;;
     (* If found in ARP, return immediately (fastest) *)
     if truthy found_ips then sret found_ips
     else
       (* 2. Slow path: Full subnet scan *)
       let subnet := subnet_of local_ip in
       let ips_to_scan := subnet_hosts subnet in
       let ips_to_scan :=
         List.filter (fun ip => negb (str_in ip arp_ips)
                                && negb (str_eqb ip local_ip))
                     ips_to_scan in
       probe_all h Slow max_workers ips_to_scan port timeout found_ips)%scan.

(** ** Notions used to state the properties of the scan *)

(** The test of the loop of [get_arp_ips]. *)
Definition keeps (local_ip ip : str) : bool :=
  startswith ip (subnet_of local_ip) && negb (str_eqb ip local_ip).

(** The addresses the slow path probes. *)
Definition sweep (h : host) : list str :=
  List.filter (fun ip => negb (str_in ip (get_arp_ips h))
                         && negb (str_eqb ip (get_local_ip h)))
              (subnet_hosts (subnet_of (get_local_ip h))).

(** The probe of [ip] is accepted. *)
Definition port_open (h : host) (port : Z) (timeout : pyfloat) (ip : str)
  : bool :=
  match check_port h ip port timeout with
  | Ok (Some _) => true
  | _ => false
  end.

(** The probe of [ip] returns (an address or [None]): it does not raise. *)
Definition probe_returns (h : host) (port : Z) (timeout : pyfloat) (ip : str)
  : bool :=
  match check_port h ip port timeout with
  | Ok _ => true
  | Raise _ => false
  end.

(** Two dotted addresses lie on the same /24 network: their first three
    octets are the same. *)
Definition same_slash24 (a b : str) : bool :=
  bool_decide (take 3 (split a DOT) = take 3 (split b DOT)).

End Scanner.


(** ** Example hosts *)

Module ScannerExamples.
Import Py Scanner.

(** Rounding to an integer, away from zero. *)
Definition round_up (q : Q) : Z :=
  let n := Qnum q in
  let d := Z.pos (Qden q) in
  if 0 <=? n then (n + d - 1) / d else - ((- n + d - 1) / d).

(** [sock.settimeout] of CPython on Linux: the timeout is turned into a
    64-bit count of nanoseconds, rounded away from zero; [ValueError] on a
    NaN and on a negative count, [OverflowError] on one that does not fit. *)
Definition linux_settimeout (timeout : pyfloat) : res unit :=
  match timeout with
  | NaN => Raise ValueError
  | Inf | NegInf => Raise OverflowError
  | Finite q =>
      let ns := round_up (q * (1000000000 # 1))%Q in
      if (- 2 ^ 63 <=? ns) && (ns <? 2 ^ 63)
      then if ns <? 0 then Raise ValueError else Ok tt
      else Raise OverflowError
  end.

(** Refuses every connection except on the given address. *)
Definition only_open (x : str) : str -> Z -> pyfloat -> connect_result :=
  fun ip _ _ => if str_eqb ip x then Errno 0 else Errno 111.

(** Every probe gets its socket. *)
Definition plenty : str -> res unit := fun _ => Ok tt.


Definition two_entries : str :=
  lit "? (192.168.1.7) at aa:bb:cc:dd:ee:01 [ether] on eth0" ++ [10%N]
  ++ lit "? (192.168.10.7) at aa:bb:cc:dd:ee:02 [ether] on eth1" ++ [10%N].

(** A host at 192.168.1.5 whose neighbor cache holds 192.168.1.7 and
    192.168.10.7; the first accepts connections. *)
Definition two_neighbors : host :=
  {| sockname := Some (lit "192.168.1.5");
     arp_a := Some two_entries;
     new_socket := plenty;
     settimeout := linux_settimeout;
     connect_ex := only_open (lit "192.168.1.7") |}.


(** A host at 192.168.1.5 with an empty neighbor cache; only 192.168.1.33
    accepts connections. *)
Definition empty_cache : host :=
  {| sockname := Some (lit "192.168.1.5");
     arp_a := Some [];
     new_socket := plenty;
     settimeout := linux_settimeout;
     connect_ex := only_open (lit "192.168.1.33") |}.




End ScannerExamples.

(* ===================================================================== *)
(** * web_server.py *)
(* ===================================================================== *)

Module Server.
Import Py.

(** Modelled from the spec: [StepResult], the dataclass that [agent.step]
    returns, is declared in [phone_agent/agent.py], which is not among the
    sources. It has a [finished] flag and an optional [message]; its other
    fields are carried along as [rest] and never inspected. *)
Record StepResult : Type := {
  finished : bool;
  message : option str;
  rest : str
}.

(** What one call of [agent.step] does: return a result, or raise an
    [Exception] whose [str()] is [description]. *)
Inductive step_outcome : Type :=
  | Returns (r : StepResult)
  | Raises (description : str).

(** The JSON messages sent over the socket, by their ["type"]. *)
Inductive ws_event : Type :=
  | Info (msg : str)
  | Step (data : StepResult)
  | Finish (msg : str)
  | Error (msg : str).

(** The task-start message, as far as the handler reads it. *)
Record request : Type := {
  task : option str;
  device_id : option str;
  max_steps : Z
}.

(** What [receive_json] yields: a task-start message, a frame on which the
    configuration code raises (not an object, [max_steps] not a number), or
    the loss of the connection. *)
Inductive frame : Type :=
  | TaskStart (req : request)
  | Malformed
  | Close.

(** What the handler does, in order. *)
Inductive action : Type :=
  | Accepted
  | Received (f : frame)
  | NewAgent (session : nat)
  | Called (session : nat) (arg : option str)
  | Sent (ev : ws_event).

(** The names bound in the module when the handler runs: its imports and
    its top-level definitions. *)
Definition module_globals : list string :=
  ["os"; "io"; "time"; "base64"; "json"; "threading"; "asyncio"; "asdict";
   "uvicorn"; "FastAPI"; "Request"; "WebSocket"; "WebSocketDisconnect";
   "Query"; "StreamingResponse"; "HTMLResponse"; "StaticFiles";
   "Jinja2Templates"; "BaseModel"; "load_dotenv"; "PhoneAgent";
   "get_screenshot"; "ADBConnection"; "list_devices"; "scan_network";
   "AgentConfig"; "ModelConfig"; "app"; "templates"; "adb_connection";
   "agent_lock"; "index"; "scan_devices"; "get_devices"; "connect_device";
   "disconnect_device"; "stream"; "websocket_endpoint"]%string.

Definition bound (name : string) : bool :=
  existsb (String.eqb name) module_globals.

(** ** The handler's state and its monad *)

Record world : Type := {
  trace : list action;   (** what has been done so far *)
  agents : nat;          (** how many agents this connection has built *)
  calls : nat            (** how many times the current agent has stepped *)
}.

Definition connect : world := {| trace := []; agents := 0; calls := 0 |}.

Inductive outcome (A : Type) : Type :=
  | Val (a : A)       (** returned *)
  | Exc (e : exn)     (** raised *)
  | Pending           (** suspended in [receive_json], no frame yet *)
  | Fuel.             (** the step loop was cut off *)
Arguments Val {A} a.
Arguments Exc {A} e.
Arguments Pending {A}.
Arguments Fuel {A}.

Definition M (A : Type) : Type := world -> outcome A * world.

Definition ret {A : Type} (a : A) : M A := fun w => (Val a, w).
Definition raise {A : Type} (e : exn) : M A := fun w => (Exc e, w).

Definition mbind {A B : Type} (m : M A) (k : A -> M B) : M B :=
  fun w =>
    match m w with
    | (Val a, w') => k a w'
    | (Exc e, w') => (Exc e, w')
    | (Pending, w') => (Pending, w')
    | (Fuel, w') => (Fuel, w')
    end.

(** [try: body except <class> as e: handler e] *)
Definition try_except {A : Type} (body : M A) (catches : exn -> bool)
    (handler : exn -> M A) : M A :=
  fun w =>
    match body w with
    | (Exc e, w') => if catches e then handler e w' else (Exc e, w')
    | r => r
    end.

Definition log (a : action) : M unit :=
  fun w => (Val tt, {| trace := trace w ++ [a];
                       agents := agents w; calls := calls w |}).

Declare Scope handler_scope.
Delimit Scope handler_scope with handler.
Notation "x <-- m ;; k" := (mbind m (fun x => k))
  (at level 100, m at next level, right associativity) : handler_scope.
Notation "m ;; k" := (mbind m (fun _ => k))
  (at level 100, right associativity) : handler_scope.
Local Open Scope handler_scope.

(** [isinstance(e, Exception)]: every class of [exn] derives from it. *)
Definition is_Exception (e : exn) : bool := true.

Definition is_WebSocketDisconnect (e : exn) : bool :=
  match e with
  | WebSocketDisconnect => true
  | _ => false
  end.

(** [str(e)] *)
Definition str_of_exn (e : exn) : str :=
  match e with
  | Exception description => description
  | NameError name => lit "name '" ++ lit name ++ lit "' is not defined"
  | _ => []
  end.

(** ** The handler *)

Section Handler.

(** [executor s n]: what the [n]-th call of [step] does on the agent built
    for the [s]-th task of the connection. *)
Variable executor : nat -> nat -> step_outcome.

(** [await websocket.send_json(...)] *)
Definition send_json (ev : ws_event) : M unit := log (Sent ev).

(** [agent = PhoneAgent(model_config, agent_config)] *)
Definition new_agent : M unit :=
  fun w => (Val tt, {| trace := trace w ++ [NewAgent (agents w)];
                       agents := S (agents w); calls := 0 |}).

(** [await loop.run_in_executor(None, lambda: agent.step(arg))] *)
Definition run_step (arg : option str) : M StepResult :=
  fun w =>
    let s := pred (agents w) in
    let w' := {| trace := trace w ++ [Called s arg];
                 agents := agents w; calls := S (calls w) |} in
    match executor s (calls w) with
    | Returns r => (Val r, w')
    | Raises description => (Exc (Exception description), w')
    end.

(** [traceback.print_exc()]: the name [traceback] is looked up first. *)
Definition traceback_print_exc : M unit :=
  if bound "traceback" then ret tt else raise (NameError "traceback").

(** [result.message or "Task completed"] *)
Definition message_or_default (result : StepResult) : str :=
  match message result with
  | Some m => if truthy m then m else lit "Task completed"
  | None => lit "Task completed"
  end.

(** [while not result.finished: ...], cut off after [fuel] turns. *)
Fixpoint step_loop (fuel : nat) (result : StepResult) : M StepResult :=
  if finished result then ret result
  else match fuel with
       | O => fun w => (Fuel, w)
       | S fuel' =>
           result <-- run_step None ;;
           send_json (Step result) ;;
           step_loop fuel' result
       end.

(** The inner [try] of the handler: one task, step by step. *)
Definition run_task (fuel : nat) (req : request) : M unit :=
  try_except
    (send_json (Info (lit "Starting task...")) ;;
     (* First step *)
     result <-- run_step (task req) ;;
     send_json (Step result) ;;
     result <-- step_loop fuel result ;;
     send_json (Finish (message_or_default result)))
    is_Exception
    (fun e =>
       send_json (Error (str_of_exn e)) ;;
       traceback_print_exc).

(** [while True: data = await websocket.receive_json(); ...] over the frames
    that arrive, in order. *)
Fixpoint serve (fuel : nat) (inbox : list frame) : M unit :=
  match inbox with
  | [] => fun w => (Pending, w)
  | f :: inbox' =>
      log (Received f) ;;
      match f with
      | Close => raise WebSocketDisconnect
      | Malformed => raise ValueError
      | TaskStart req =>
          new_agent ;;
          run_task fuel req ;;
          serve fuel inbox'
      end
  end.

Definition websocket_endpoint (fuel : nat) (inbox : list frame) : M unit :=
  log Accepted ;;
  try_except (serve fuel inbox) is_WebSocketDisconnect (fun _ => ret tt).

End Handler.

(** ** Notions used to state the properties of the handler *)

(** The events the client has received. *)
Fixpoint sent_events (t : list action) : list ws_event :=
  match t with
  | [] => []
  | Sent ev :: t' => ev :: sent_events t'
  | _ :: t' => sent_events t'
  end.

(** The steps of one agent with their results, each result sent before the
    next step is called. *)
Fixpoint stepping (s : nat) (arg : option str) (results : list StepResult)
  : list action :=
  match results with
  | [] => []
  | r :: results' =>
      Called s arg :: Sent (Step r) :: stepping s None results'
  end.

(** An executor that plays the given outcomes in order on the first agent
    and finishes at once on the others. *)
Definition done_result : StepResult :=
  {| finished := true; message := None; rest := [] |}.

Definition scripted (script : list step_outcome) : nat -> nat -> step_outcome :=
  fun s n =>
    match s with
    | O => nth n script (Returns done_result)
    | S _ => Returns done_result
    end.

End Server.

(** ** Example tasks *)

Module ServerExamples.
Import Py Server.

Definition open_settings : request :=
  {| task := Some (lit "open settings"); device_id := None; max_steps := 100 |}.

Definition go_home : request :=
  {| task := Some (lit "go home"); device_id := None; max_steps := 100 |}.

Definition working : StepResult :=
  {| finished := false; message := None; rest := lit "tap" |}.

Definition completed : StepResult :=
  {| finished := true; message := Some (lit "done"); rest := lit "finish" |}.

(** A last step that carries no message. *)
Definition completed_silently : StepResult :=
  {| finished := true; message := None; rest := lit "finish" |}.

End ServerExamples.

(* ===================================================================== *)
(** * phone_agent/model/client.py: the request and the message builder *)
(* ===================================================================== *)

Module ClientRequest.
Import Py Client.
Local Open Scope res_scope.

(** One chunk of the streamed completion, as far as [request] reads it:
    [chunk.choices], and [choice.delta.content] of each choice. *)
Record choice : Type := { delta_content : option str }.
Record chunk : Type := { choices : list choice }.

(** [if chunk.choices and chunk.choices[0].delta.content:
        raw_content += chunk.choices[0].delta.content] *)
Definition add_chunk (raw_content : str) (c : chunk) : str :=
  match choices c with
  | [] => raw_content
  | first :: _ =>
      match delta_content first with
      | Some text => if truthy text then raw_content ++ text else raw_content
      | None => raw_content
      end
  end.

(** [raw_content = ""; for chunk in response: ...] *)
Definition accumulate (response : list chunk) : str :=
  fold_left add_chunk response [].

Record ModelResponse : Type := {
  thinking : str;
  action : str;
  raw_content : str
}.

(** [ModelClient.request], from the stream the service answers with. *)
Definition request (response : list chunk) : res ModelResponse :=
  let raw_content := accumulate response in
  parsed <- parse_response raw_content ;;;
  Ok {| thinking := parsed.1; action := parsed.2;
        raw_content := raw_content |}.

(** The text a chunk carries: the content of its first choice, if any. *)
Definition chunk_text (c : chunk) : str :=
  match choices c with
  | [] => []
  | first :: _ => default [] (delta_content first)
  end.

End ClientRequest.

Module MessageBuilder.
Import Py.

(** The values the messages are made of: strings and dictionaries (a
    dictionary is the list of its keys and values, in the order written). *)
#[warnings="-register-all"] Inductive value : Type :=
  | VStr (s : str)
  | VDict (d : list (string * value)).

Definition item : Type := list (string * value).

(** [d.get(key)] *)
Fixpoint get (d : item) (key : string) : option value :=
  match d with
  | [] => None
  | (k, v) :: d' => if String.eqb k key then Some v else get d' key
  end.

(** The ["content"] of a message: a string, or a list of items. *)
Inductive content : Type :=
  | Plain (s : str)
  | Parts (items : list item).

Record message : Type := { role : str; body : content }.

Definition create_system_message (content : str) : message :=
  {| role := lit "system"; body := Plain content |}.

Definition create_assistant_message (content : str) : message :=
  {| role := lit "assistant"; body := Plain content |}.

(** [create_user_message(text, image_base64=None)] *)
Definition create_user_message (text : str) (image_base64 : option str)
  : message :=
  let content : list item := [] in
  let content :=
    match image_base64 with
    | Some image =>
        if truthy image
        then content ++
             [[("type", VStr (lit "image_url"));
               ("image_url",
                VDict [("url", VStr (lit "data:image/png;base64," ++ image))])
              ]%string]
        else content
    | None => content
    end in
  let content :=
    content ++ [[("type", VStr (lit "text")); ("text", VStr text)]%string] in
  {| role := lit "user"; body := Parts content |}.

(** [item.get("type") == "text"] *)
Definition is_text (it : item) : bool :=
  match get it "type" with
  | Some (VStr s) => str_eqb s (lit "text")
  | _ => false
  end.

(** [remove_images_from_message] *)
Definition remove_images_from_message (m : message) : message :=
  match body m with
  | Parts items => {| role := role m; body := Parts (List.filter is_text items) |}
  | Plain _ => m
  end.

End MessageBuilder.

(* ===================================================================== *)
(** * More of the scan and of the web server *)
(* ===================================================================== *)

Module ScannerMore.
Import Py Scanner.



(** The text holds no dot. *)
Definition dotless (s : str) : bool :=
  forallb (fun c => negb (c =? 46)%N) s.

(** The addresses a run has probed, in order. *)
Fixpoint probed (log : list event) : list str :=
  match log with
  | [] => []
  | Probe _ ip :: log' => ip :: probed log'
  | NeighborCache _ :: log' => probed log'
  end.

End ScannerMore.

Module ServerMore.
Import Py Server.

(** No event follows an error event. *)
Fixpoint error_only_last (events : list ws_event) : bool :=
  match events with
  | [] => true
  | Error _ :: events' => negb (truthy events')
  | _ :: events' => error_only_last events'
  end.

Definition is_error (ev : ws_event) : bool :=
  match ev with
  | Error _ => true
  | _ => false
  end.

(** A finish event carries a message that is not empty. *)
Definition finish_has_message (ev : ws_event) : bool :=
  match ev with
  | Finish m => truthy m
  | _ => true
  end.

(** A stream with no error event in which every finish event has a
    message. *)
Definition clean (events : list ws_event) : bool :=
  forallb (fun ev => negb (is_error ev) && finish_has_message ev) events.

(** What the handler does for a task whose first step already finishes. *)
Definition one_step_session (s : nat) (req : request) (r : StepResult)
  : list action :=
  [Received (TaskStart req); NewAgent s;
   Sent (Info (lit "Starting task...")); Called s (task req);
   Sent (Step r); Sent (Finish (message_or_default r))].

End ServerMore.
(* ===================================================================== *)
(** * Facts about the [str] builtins *)
(* ===================================================================== *)

Module PyFacts.
Import Py.

Lemma trimmed_nil : trimmed [].
Proof. split; intros c; discriminate. Qed.

Lemma rstrip_last (s : str) c : last (rstrip s) = Some c -> isspace c = false.
Proof.
  induction s as [|a s IH]; simpl; [discriminate|].
  destruct (rstrip s) as [|b r] eqn:E.
  - destruct (isspace a) eqn:Ha; simpl; [discriminate|].
    intros [= <-]. exact Ha.
  - intros H. apply IH. exact H.
Qed.

Lemma lstrip_head (s : str) c : head (lstrip s) = Some c -> isspace c = false.
Proof.
  induction s as [|a s IH]; simpl; [discriminate|].
  destruct (isspace a) eqn:Ha; [exact IH|].
  simpl. intros [= <-]. exact Ha.
Qed.

Lemma lstrip_last (s : str) c : last (lstrip s) = Some c -> last s = Some c.
Proof.
  induction s as [|a s IH]; simpl; [discriminate|].
  destruct (isspace a); [|trivial].
  intros H. specialize (IH H). destruct s; [discriminate|exact IH].
Qed.

Lemma trimmed_strip (s : str) : trimmed (strip s).
Proof.
  split; intros c H.
  - exact (lstrip_head _ _ H).
  - exact (rstrip_last _ _ (lstrip_last _ _ H)).
Qed.

(** ** Prefixes and first occurrences *)

Lemma startswith_app (s p : str) :
  startswith s p = true <-> exists r, s = p ++ r.
Proof.
  revert s. induction p as [|x p IH]; intros s; simpl.
  - split; [intros _; exists s; reflexivity | destruct s; reflexivity].
  - destruct s as [|c s]; simpl.
    + split; [discriminate | intros [r Hr]; discriminate].
    + rewrite andb_true_iff, N.eqb_eq, IH. split.
      * intros [-> [r ->]]. exists r. reflexivity.
      * intros [r [= -> ->]]. split; [reflexivity | exists r; reflexivity].
Qed.

Lemma find_from_occ (i : Z) (s sub : str) :
  find_from i s sub =
  match first_occ s sub with
  | Some k => i + Z.of_nat k
  | None => -1
  end.
Proof.
  revert i. induction s as [|c s IH]; intros i; cbn [find_from first_occ].
  - destruct (startswith [] sub); [lia | reflexivity].
  - destruct (startswith (c :: s) sub); [lia|].
    rewrite IH. destruct (first_occ s sub); simpl; [lia | reflexivity].
Qed.

Lemma find_occ (s sub : str) :
  find s sub = match first_occ s sub with
               | Some k => Z.of_nat k
               | None => -1
               end.
Proof. unfold find. rewrite find_from_occ. reflexivity. Qed.

Lemma contains_occ (s sub : str) :
  contains sub s = true <-> is_Some (first_occ s sub).
Proof.
  unfold contains. rewrite find_occ.
  destruct (first_occ s sub) as [k|]; simpl.
  - split; [eauto|]. intros _. apply negb_true_iff, Z.eqb_neq. lia.
  - split; [discriminate | intros [? ?]; discriminate].
Qed.

Lemma first_occ_split (s sub : str) k :
  first_occ s sub = Some k ->
  s = take k s ++ sub ++ drop (k + length sub) s /\
  forall j, (j < k)%nat -> startswith (drop j s) sub = false.
Proof.
  revert k. induction s as [|c s IH]; intros k; cbn [first_occ].
  - destruct (startswith [] sub) eqn:E; [|discriminate].
    intros [= <-]. split; [|lia].
    apply startswith_app in E as [r Hr].
    destruct sub; [reflexivity | discriminate].
  - destruct (startswith (c :: s) sub) eqn:E.
    + intros [= <-]. split; [|lia].
      apply startswith_app in E as [r Hr]. simpl.
      rewrite Hr at 1. f_equal. rewrite Hr, drop_app_length. reflexivity.
    + destruct (first_occ s sub) as [k'|] eqn:Ek; [|discriminate].
      simpl. intros [= <-]. destruct (IH k' eq_refl) as [Hs Hj].
      split.
      * simpl. f_equal. exact Hs.
      * intros [|j] Hlt; simpl; [exact E | apply Hj; lia].
Qed.

Lemma first_occ_app (a sub b : str) : is_Some (first_occ (a ++ sub ++ b) sub).
Proof.
  induction a as [|c a IH]; cbn [app first_occ].
  - assert (startswith (sub ++ b) sub = true) as E
      by (apply startswith_app; eauto).
    destruct (sub ++ b); cbn [first_occ]; rewrite E; eauto.
  - destruct (startswith (c :: a ++ sub ++ b) sub); [eauto|].
    destruct IH as [k ->]. simpl. eauto.
Qed.

(** ** Stripping keeps an occurrence whose ends are not whitespace *)

Lemma lstrip_app (a x : str) c :
  head x = Some c -> isspace c = false -> lstrip (a ++ x) = lstrip a ++ x.
Proof.
  intros Hx Hc. induction a as [|d a IH]; simpl.
  - destruct x as [|y x]; [discriminate|]. simpl in *.
    injection Hx as ->. rewrite Hc. reflexivity.
  - destruct (isspace d); [exact IH | reflexivity].
Qed.

Lemma rstrip_cons c (s : str) :
  rstrip (c :: s) =
  match rstrip s with
  | [] => if isspace c then [] else [c]
  | r => c :: r
  end.
Proof. reflexivity. Qed.

Lemma rstrip_app (x b : str) c :
  last x = Some c -> isspace c = false -> rstrip (x ++ b) = x ++ rstrip b.
Proof.
  intros Hx Hc. induction x as [|d x IH]; [discriminate|].
  destruct x as [|e x].
  - simpl in *. injection Hx as ->.
    destruct (rstrip b); [rewrite Hc|]; reflexivity.
  - specialize (IH Hx). change ((d :: e :: x) ++ b) with (d :: ((e :: x) ++ b)).
    rewrite rstrip_cons, IH. reflexivity.
Qed.

Lemma contains_strip (sub s : str) c1 c2 :
  head sub = Some c1 -> isspace c1 = false ->
  last sub = Some c2 -> isspace c2 = false ->
  contains sub s = true -> contains sub (strip s) = true.
Proof.
  intros H1 S1 H2 S2 Hc.
  apply contains_occ in Hc as [k Hk].
  apply first_occ_split in Hk as [Hs _].
  rewrite Hs. unfold strip.
  assert (last (take k s ++ sub) = Some c2) as Hl.
  { rewrite last_app, H2. reflexivity. }
  rewrite app_assoc, (rstrip_app _ _ c2 Hl S2), <- app_assoc.
  assert (head (sub ++ rstrip (drop (k + length sub) s)) = Some c1) as Hh.
  { destruct sub; [discriminate | exact H1]. }
  rewrite (lstrip_app _ _ c1 Hh S1).
  apply contains_occ, first_occ_app.
Qed.

End PyFacts.
(* ===================================================================== *)
(** * The response decoder *)
(* ===================================================================== *)

Module ClientFacts.
Import Py PyFacts Client ClientSpec.

Lemma split_1_found (s sep : str) k :
  first_occ s sep = Some k ->
  split_1 s sep = [take k s; drop (k + length sep) s].
Proof.
  intros Hk. unfold split_1, slice_to, slice_from.
  rewrite find_occ, Hk.
  replace (Z.of_nat k =? -1) with false by (symmetry; apply Z.eqb_neq; lia).
  rewrite Nat2Z.id. do 3 f_equal. lia.
Qed.

Lemma answer_open_ends :
  head ANSWER_OPEN = Some 60%N /\ last ANSWER_OPEN = Some 62%N.
Proof. split; reflexivity. Qed.

Lemma first_marker_none (content : str) :
  existsb (fun m => contains m content) action_markers = false ->
  first_marker content = Z.of_nat (length content).
Proof.
  unfold first_marker, action_markers. cbn [existsb fold_left]. cbv beta zeta.
  rewrite !orb_false_iff. unfold contains.
  intros (H1 & H2 & H3 & _).
  apply negb_false_iff in H1, H2, H3. rewrite H1, H2, H3. reflexivity.
Qed.

(** C3 as stated fails: the decoder also trims both fields, so on an input
    with a blank between the rationale and the answer delimiter the
    rationale is not the text before the delimiter with the markers taken
    out. *)
Lemma decode_answer_literal_counterexample :
  let content := lit "<think>foo</think> <answer>do(tap,1,2)</answer>" in
  contains ANSWER_OPEN content = true /\
  answer_rule_literal content = (lit "foo ", lit "do(tap,1,2)") /\
  parse_response content = Ok (lit "foo", lit "do(tap,1,2)") /\
  parse_response content <> Ok (answer_rule_literal content).
Proof. vm_compute. repeat split; discriminate. Qed.

(** C3, amended: when the input contains the answer delimiter, the decoder
    splits the trimmed input at the first occurrence of [<answer>]; thinking
    is the text before it with [<think>] and [</think>] removed and then
    trimmed, action is the text after it with [</answer>] removed and then
    trimmed. The delimited example of the specification decodes to
    ("foo", "do(tap,1,2)"). *)
Theorem decode_answer_delimiter :
  (forall content : str,
      contains ANSWER_OPEN content = true ->
      exists before after : str,
        strip content = before ++ ANSWER_OPEN ++ after /\
        (forall j, (j < length before)%nat ->
                   startswith (drop j (strip content)) ANSWER_OPEN = false) /\
        parse_response content =
        Ok (strip (replace (replace before THINK_OPEN []) THINK_CLOSE []),
            strip (replace after ANSWER_CLOSE []))) /\
  parse_response (lit "<think>foo</think><answer>do(tap,1,2)</answer>")
  = Ok (lit "foo", lit "do(tap,1,2)").
Proof.
  split; [|reflexivity].
  intros content Hc.
  destruct answer_open_ends as [Hh Hl].
  pose proof (contains_strip _ _ _ _ Hh eq_refl Hl eq_refl Hc) as Hc'.
  pose proof Hc' as Ho. apply contains_occ in Ho as [k Hk].
  destruct (first_occ_split _ _ _ Hk) as [Hs Hj].
  exists (take k (strip content)),
         (drop (k + length ANSWER_OPEN) (strip content)).
  split; [exact Hs|]. split.
  - intros j Hlt. apply Hj. rewrite length_take in Hlt. lia.
  - unfold parse_response. rewrite Hc', (split_1_found _ _ _ Hk).
    reflexivity.
Qed.

Lemma decode_answer_delimiter_witness :
  exists before after : str,
    strip (lit " <think>a</think> <answer>finish()</answer> ")
    = before ++ ANSWER_OPEN ++ after /\
    (forall j, (j < length before)%nat ->
       startswith
         (drop j (strip (lit " <think>a</think> <answer>finish()</answer> ")))
         ANSWER_OPEN = false) /\
    parse_response (lit " <think>a</think> <answer>finish()</answer> ") =
    Ok (strip (replace (replace before THINK_OPEN []) THINK_CLOSE []),
        strip (replace after ANSWER_CLOSE [])).
Proof.
  apply (proj1 decode_answer_delimiter). vm_compute. reflexivity.
Defined.

(** C6: when the trimmed input contains no answer delimiter, no pair of
    rationale markers and none of the action-start tokens, and does not begin
    with ["{"], ["do("] or ["finish("], the decoder returns the whole
    trimmed text as thinking and the empty string as action. *)
Theorem decode_pure_rationale (content : str) :
  contains ANSWER_OPEN (strip content) = false ->
  contains THINK_OPEN (strip content) && contains THINK_CLOSE (strip content)
  = false ->
  existsb (fun m => contains m (strip content)) action_markers = false ->
  startswith (strip content) (lit "{")
  || startswith (strip content) (lit "do(")
  || startswith (strip content) (lit "finish(") = false ->
  parse_response content = Ok (strip content, []).
Proof.
  intros Ha Ht Hm Hs. unfold parse_response.
  rewrite Ha, Ht, (first_marker_none _ Hm), Z.ltb_irrefl, Hs. reflexivity.
Qed.

Lemma decode_pure_rationale_witness :
  parse_response (lit "Nothing to do here.")
  = Ok (strip (lit "Nothing to do here."), []).
Proof.
  apply decode_pure_rationale; vm_compute; reflexivity.
Defined.

(** C10: the decoder returns on every input, and both fields of its result
    are trimmed: neither begins nor ends with a whitespace character. *)
Theorem decode_total_trimmed (content : str) :
  exists thinking action : str,
    parse_response content = Ok (thinking, action) /\
    trimmed thinking /\ trimmed action.
Proof.
  unfold parse_response.
  destruct (contains ANSWER_OPEN (strip content)) eqn:Ha.
  { apply contains_occ in Ha as [k Hk]. rewrite (split_1_found _ _ _ Hk).
    cbn [getitem nth_error bind]. eexists _, _.
    split; [reflexivity|]. split; apply trimmed_strip. }
  destruct (contains THINK_OPEN (strip content)
            && contains THINK_CLOSE (strip content)) eqn:Ht.
  { apply andb_true_iff in Ht as [_ Ht].
    apply contains_occ in Ht as [k Hk]. rewrite (split_1_found _ _ _ Hk).
    cbn [getitem nth_error bind]. eexists _, _.
    split; [reflexivity|]. split; apply trimmed_strip. }
  destruct (first_marker (strip content) <? Z.of_nat (length (strip content))).
  { eexists _, _. split; [reflexivity|]. split; apply trimmed_strip. }
  destruct (startswith (strip content) (lit "{")
            || startswith (strip content) (lit "do(")
            || startswith (strip content) (lit "finish(")).
  - eexists _, _. split; [reflexivity|].
    split; [apply trimmed_nil | apply trimmed_strip].
  - eexists _, _. split; [reflexivity|].
    split; [apply trimmed_strip | apply trimmed_nil].
Qed.

End ClientFacts.

(* ===================================================================== *)
(** * The discovery engine *)
(* ===================================================================== *)

Module ScannerFacts.
Import Py PyFacts Scanner ScannerMore.

(** ** Strings and lists of strings *)

Lemma str_eqb_eq (a b : str) : str_eqb a b = true <-> a = b.
Proof.
  revert b. induction a as [|x a IH]; intros [|y b]; simpl;
    try (split; [discriminate | intros [=]]); [tauto|].
  rewrite andb_true_iff, N.eqb_eq, IH. split.
  - intros [-> ->]. reflexivity.
  - intros [= -> ->]. tauto.
Qed.

Lemma str_eqb_neq (a b : str) : str_eqb a b = false <-> a <> b.
Proof.
  rewrite <- str_eqb_eq. destruct (str_eqb a b); split; congruence.
Qed.

Lemma str_in_elem (x : str) (l : list str) : str_in x l = true <-> x ∈ l.
Proof.
  unfold str_in. rewrite existsb_exists. split.
  - intros (y & Hy & He). apply str_eqb_eq in He as ->.
    apply list_elem_of_In. exact Hy.
  - intros Hx. exists x. split; [apply list_elem_of_In, Hx|].
    apply str_eqb_eq. reflexivity.
Qed.

Lemma elem_of_filter_bool {A : Type} (p : A -> bool) (l : list A) x :
  x ∈ List.filter p l <-> x ∈ l /\ p x = true.
Proof. rewrite !list_elem_of_In. apply filter_In. Qed.

Lemma elem_of_map {A B : Type} (f : A -> B) (l : list A) y :
  y ∈ map f l <-> exists x, y = f x /\ x ∈ l.
Proof.
  rewrite list_elem_of_In, in_map_iff. split.
  - intros (x & Hx & Hin). exists x. split; [congruence|].
    apply list_elem_of_In. exact Hin.
  - intros (x & Hx & Hin). exists x. split; [congruence|].
    apply list_elem_of_In. exact Hin.
Qed.

Lemma truthy_false {A : Type} (l : list A) : truthy l = false <-> l = [].
Proof. destruct l; simpl; split; congruence. Qed.

Lemma truthy_true {A : Type} (l : list A) : truthy l = true <-> l <> [].
Proof. destruct l; simpl; split; congruence. Qed.


(** ** The neighbor-cache candidates *)

Lemma arp_loop_elem (local_ip : str) (found : list str) (acc : gset str) ip :
  ip ∈ foldl (fun ips ip =>
                if startswith ip (subnet_of local_ip)
                   && negb (str_eqb ip local_ip)
                then ips ∪ {[ ip ]} else ips) acc found
  <-> ip ∈ acc \/ (ip ∈ found /\ keeps local_ip ip = true).
Proof.
  revert acc. induction found as [|x found IH]; intros acc; simpl.
  - split; [tauto | intros [H|[H _]]; [exact H | inversion H]].
  - rewrite IH, elem_of_cons. fold (keeps local_ip x).
    destruct (keeps local_ip x) eqn:Hk.
    + rewrite elem_of_union, elem_of_singleton. split.
      * intros [[H| ->]|[H1 H2]]; auto.
      * intros [H|[[->|H1] H2]]; auto.
    + split.
      * intros [H|[H1 H2]]; auto.
      * intros [H|[[->|H1] H2]]; auto. congruence.
Qed.

Lemma arp_candidates_elem (local_ip : str) (found : list str) ip :
  ip ∈ arp_candidates local_ip found <->
  ip ∈ found /\ startswith ip (subnet_of local_ip) = true /\ ip <> local_ip.
Proof.
  unfold arp_candidates. rewrite elem_of_elements, arp_loop_elem.
  unfold keeps. rewrite andb_true_iff, negb_true_iff, str_eqb_neq.
  split; [intros [H|H]; [set_solver | tauto] | tauto].
Qed.

Lemma arp_candidates_NoDup (local_ip : str) (found : list str) :
  NoDup (arp_candidates local_ip found).
Proof. apply NoDup_elements. Qed.

(** ** What the pattern matches is never empty *)

Lemma octet_nonempty (s d r : str) : octet s = Some (d, r) -> d <> [].
Proof.
  unfold octet. destruct (digits 3 s) as [d' r'].
  destruct d'; simpl; [discriminate|]. intros [= <- <-]. discriminate.
Qed.

Lemma match_ip_nonempty (s m r : str) : match_ip s = Some (m, r) -> m <> [].
Proof.
  unfold match_ip. destruct (octet s) as [[o1 r1]|] eqn:E1; [|discriminate].
  simpl. intros H.
  repeat match type of H with
         | context [mbind _ ?x] => destruct x as [[? ?]|]; simpl in H
         | context [mbind _ ?x] => destruct x as [?|]; simpl in H
         | context [if ?b then _ else _] => destruct b
         | None = Some _ => discriminate H
         end.
  injection H as <- <-. apply octet_nonempty in E1.
  destruct o1; [contradiction | discriminate].
Qed.

Lemma findall_go_nonempty (s : str) p k m :
  m ∈ findall_go p k s -> m <> [].
Proof.
  revert p k. induction s as [|c s IH]; intros p k; cbn [findall_go].
  - intros H. inversion H.
  - destruct k as [|k]; [|apply IH].
    destruct p; [apply IH|].
    destruct (match_ip (c :: s)) as [[m' r]|] eqn:E; [|apply IH].
    intros [->|H]%elem_of_cons; [|exact (IH _ _ H)].
    exact (match_ip_nonempty _ _ _ E).
Qed.

Lemma get_arp_ips_nonempty (h : host) ip : ip ∈ get_arp_ips h -> ip <> [].
Proof.
  unfold get_arp_ips. destruct (arp_a h) as [output|].
  - intros [H _]%arp_candidates_elem.
    exact (findall_go_nonempty _ _ _ _ H).
  - rewrite elements_empty. intros H. inversion H.
Qed.

(** A decimal digit is a word character: there is no word boundary
    between two digits. *)
Lemma in_ranges_covered (small big : list (N * N)) c :
  forallb (fun r => existsb (fun w => (w.1 <=? r.1) && (r.2 <=? w.2))%N big)
          small = true ->
  in_ranges small c = true -> in_ranges big c = true.
Proof.
  unfold in_ranges. rewrite forallb_forall, !existsb_exists.
  intros Hcov (r & Hr & Hc). apply Hcov, existsb_exists in Hr as (w & Hw & Hrw).
  exists w. split; [exact Hw|].
  apply andb_true_iff in Hc as [H1 H2]. apply andb_true_iff in Hrw as [H3 H4].
  apply N.leb_le in H1, H2, H3, H4.
  apply andb_true_iff. split; apply N.leb_le; lia.
Qed.

Lemma digit_is_word c : isdigit c = true -> isword c = true.
Proof. apply in_ranges_covered. vm_compute. reflexivity. Qed.

(** ** One probe and one batch of probes *)


Lemma check_port_ok (h : host) ip port timeout :
  probe_returns h port timeout ip = true ->
  check_port h ip port timeout
  = Ok (if port_open h port timeout ip then Some ip else None).
Proof.
  unfold probe_returns, port_open.
  destruct (check_port h ip port timeout) as [r|e] eqn:E; [|discriminate].
  intros _. f_equal. revert E. unfold check_port.
  destruct (new_socket h ip) as [[]|e1]; cbn [bind]; [|discriminate].
  destruct (settimeout h timeout) as [[]|e2]; cbn [bind]; [|discriminate].
  destruct (connect_ex h ip port timeout) as [[| |]|]; intros [= <-];
    reflexivity.
Qed.

Lemma check_port_raises (h : host) ip port timeout :
  probe_returns h port timeout ip = false ->
  exists e, check_port h ip port timeout = Raise e.
Proof.
  unfold probe_returns.
  destruct (check_port h ip port timeout) as [r|e]; [discriminate|].
  intros _. exists e. reflexivity.
Qed.

Lemma port_open_connect (h : host) ip port timeout :
  port_open h port timeout ip = true <->
  new_socket h ip = Ok tt /\ settimeout h timeout = Ok tt /\
  connect_ex h ip port timeout = Errno 0.
Proof.
  unfold port_open, check_port.
  destruct (new_socket h ip) as [[]|e1]; cbn [bind];
    [|split; [discriminate | intros [[=] _]]].
  destruct (settimeout h timeout) as [[]|e2]; cbn [bind];
    [|split; [discriminate | intros (_ & [=] & _)]].
  destruct (connect_ex h ip port timeout) as [[| |]|]; split;
    try discriminate; try tauto; intros (_ & _ & ?); discriminate.
Qed.

Lemma port_open_returns (h : host) ip port timeout :
  port_open h port timeout ip = true -> probe_returns h port timeout ip = true.
Proof.
  unfold port_open, probe_returns.
  destruct (check_port h ip port timeout) as [[r|]|e];
    [reflexivity | discriminate | discriminate].
Qed.

(** Reading the results of a batch: either every probe has returned and the
    accepted addresses are appended, or the exception of a probe is
    raised. *)
Lemma collect_cases (h : host) port timeout (ips : list str) :
  (forall ip, ip ∈ ips -> ip <> []) ->
  forall found_ips,
    ((forall ip, ip ∈ ips -> probe_returns h port timeout ip = true) /\
     collect (map (fun ip => check_port h ip port timeout) ips) found_ips
     = Ok (found_ips ++ List.filter (port_open h port timeout) ips))
    \/
    (exists ip e,
        ip ∈ ips /\ check_port h ip port timeout = Raise e /\
        collect (map (fun ip => check_port h ip port timeout) ips) found_ips
        = Raise e).
Proof.
  induction ips as [|ip ips IH]; intros Hne acc.
  - left. split; [intros ip H; inversion H|].
    cbn [map collect List.filter]. rewrite app_nil_r. reflexivity.
  - cbn [map collect List.filter].
    destruct (probe_returns h port timeout ip) eqn:Hr.
    + rewrite (check_port_ok _ _ _ _ Hr).
      assert (truthy ip = true) as Hip by (apply truthy_true, Hne; left).
      assert (forall x, x ∈ ips -> x <> []) as Hne'
          by (intros x Hx; apply Hne; right; exact Hx).
      destruct (IH Hne'
                  (append_result acc
                     (if port_open h port timeout ip then Some ip else None)))
        as [[Hall Hc]|(x & e & Hx & He & Hc)].
      * left. split.
        { intros x [->|Hx]%elem_of_cons; [exact Hr | exact (Hall x Hx)]. }
        rewrite Hc. destruct (port_open h port timeout ip);
          cbn [append_result].
        -- rewrite Hip, <- app_assoc. reflexivity.
        -- reflexivity.
      * right. exists x, e. split; [right; exact Hx|]. split; assumption.
    + destruct (check_port_raises _ _ _ _ Hr) as [e He]. right.
      exists ip, e. split; [left|]. split; [exact He|].
      rewrite He. reflexivity.
Qed.



(** A batch with workers: every probe is made; the batch returns the
    accepted addresses, or raises what one of its probes raises. *)
Lemma probe_all_cases (h : host) ph max_workers (ips : list str) port timeout :
  0 < max_workers ->
  (forall ip, ip ∈ ips -> ip <> []) ->
  ((forall ip, ip ∈ ips -> probe_returns h port timeout ip = true) /\
   probe_all h ph max_workers ips port timeout []
   = (Ok (List.filter (port_open h port timeout) ips), map (Probe ph) ips))
  \/
  (exists ip e,
      ip ∈ ips /\ check_port h ip port timeout = Raise e /\
      probe_all h ph max_workers ips port timeout []
      = (Raise e, map (Probe ph) ips)).
Proof.
  intros Hw Hne. unfold probe_all.
  replace (max_workers <=? 0) with false by (symmetry; apply Z.leb_gt; lia).
  destruct (collect_cases h port timeout ips Hne [])
    as [[Hall Hc]|(x & e & Hx & He & Hc)]; rewrite Hc.
  - left. split; [exact Hall | reflexivity].
  - right. exists x, e. split; [exact Hx|]. split; [exact He | reflexivity].
Qed.

Lemma probe_all_log (h : host) ph max_workers (ips : list str) port timeout
      acc e :
  e ∈ (probe_all h ph max_workers ips port timeout acc).2 ->
  exists ip, e = Probe ph ip /\ ip ∈ ips.
Proof.
  unfold probe_all. destruct (max_workers <=? 0); cbn [snd].
  - intros H. inversion H.
  - intros (ip & -> & Hip)%elem_of_map. exists ip. split; [reflexivity|].
    exact Hip.
Qed.

(** ** The addresses of the full sweep *)

Lemma subnet_hosts_length (subnet : str) :
  length (subnet_hosts subnet) = 254%nat.
Proof. unfold subnet_hosts. rewrite length_map, length_seq. reflexivity. Qed.

Lemma subnet_hosts_nonempty (subnet ip : str) :
  ip ∈ subnet_hosts subnet -> ip <> [].
Proof.
  unfold subnet_hosts. intros (i & -> & _)%elem_of_map.
  destruct subnet; discriminate.
Qed.

Lemma last_octets_NoDup : NoDup (map str_of_nat (seq 1 254)).
Proof. apply (bool_decide_unpack _). vm_compute. exact I. Qed.

Lemma subnet_hosts_NoDup (subnet : str) : NoDup (subnet_hosts subnet).
Proof.
  unfold subnet_hosts.
  change (map (fun i => subnet ++ DOT ++ str_of_nat i) (seq 1 254))
    with (map (fun i => (fun t => subnet ++ DOT ++ t) (str_of_nat i))
              (seq 1 254)).
  rewrite <- (map_map str_of_nat (fun t => subnet ++ DOT ++ t)).
  apply NoDup_fmap_2; [|exact last_octets_NoDup].
  intros a b Hab. apply app_inv_head in Hab. apply app_inv_head in Hab.
  exact Hab.
Qed.

Lemma sweep_nonempty (h : host) ip : ip ∈ sweep h -> ip <> [].
Proof.
  unfold sweep. intros [H _]%elem_of_filter_bool.
  exact (subnet_hosts_nonempty _ _ H).
Qed.

Lemma sweep_NoDup (h : host) : NoDup (sweep h).
Proof.
  unfold sweep. apply NoDup_ListNoDup, List.NoDup_filter, NoDup_ListNoDup.
  apply subnet_hosts_NoDup.
Qed.

(** ** The run of the scan, case by case *)

Lemma scan_network_loopback (h : host) port timeout max_workers :
  get_local_ip h = LOOPBACK ->
  scan_network h port timeout max_workers = (Ok [], []).
Proof.
  intros Hl. unfold scan_network. rewrite Hl.
  replace (str_eqb LOOPBACK LOOPBACK) with true; [reflexivity|].
  symmetry. apply str_eqb_eq. reflexivity.
Qed.

(** The neighbor-cache candidates, by what [get_arp_ips] does. *)
Lemma get_arp_ips_NoDup (h : host) : NoDup (get_arp_ips h).
Proof.
  unfold get_arp_ips. destruct (arp_a h) as [output|].
  - apply arp_candidates_NoDup.
  - rewrite elements_empty. constructor.
Qed.

Lemma get_arp_ips_elem (h : host) ip :
  ip ∈ get_arp_ips h <->
  (exists output, arp_a h = Some output /\ ip ∈ findall_ip output) /\
  startswith ip (subnet_of (get_local_ip h)) = true /\
  ip <> get_local_ip h.
Proof.
  unfold get_arp_ips. destruct (arp_a h) as [output|].
  - rewrite arp_candidates_elem. split.
    + intros (H1 & H2 & H3). split; [exists output; split; trivial|].
      split; assumption.
    + intros ((out & [= <-] & H1) & H2 & H3). split; [exact H1|].
      split; assumption.
  - rewrite elements_empty. split.
    + intros H. inversion H.
    + intros ((out & [=] & _) & _).
Qed.

(** The fast path on its own: it probes every candidate; it keeps those
    whose port is open, or raises what one of the probes raises. *)
Lemma fast_path_cases (h : host) port timeout :
  ((forall ip, ip ∈ get_arp_ips h -> probe_returns h port timeout ip = true)
   /\
   (if truthy (get_arp_ips h)
    then probe_all h Fast (Z.of_nat (length (get_arp_ips h)) + 1)
                   (get_arp_ips h) port timeout []
    else sret [])
   = (Ok (List.filter (port_open h port timeout) (get_arp_ips h)),
      map (Probe Fast) (get_arp_ips h)))
  \/
  (exists ip e,
      ip ∈ get_arp_ips h /\ check_port h ip port timeout = Raise e /\
      (if truthy (get_arp_ips h)
       then probe_all h Fast (Z.of_nat (length (get_arp_ips h)) + 1)
                      (get_arp_ips h) port timeout []
       else sret [])
      = (Raise e, map (Probe Fast) (get_arp_ips h))).
Proof.
  destruct (truthy (get_arp_ips h)) eqn:Ha.
  - apply probe_all_cases; [lia | apply get_arp_ips_nonempty].
  - apply truthy_false in Ha. rewrite Ha. left.
    split; [intros ip H; inversion H | reflexivity].
Qed.

Lemma fast_path_run (h : host) port timeout :
  (forall ip, ip ∈ get_arp_ips h -> probe_returns h port timeout ip = true) ->
  (if truthy (get_arp_ips h)
   then probe_all h Fast (Z.of_nat (length (get_arp_ips h)) + 1)
                  (get_arp_ips h) port timeout []
   else sret [])
  = (Ok (List.filter (port_open h port timeout) (get_arp_ips h)),
     map (Probe Fast) (get_arp_ips h)).
Proof.
  intros Hall.
  destruct (fast_path_cases h port timeout)
    as [[_ Hc]|(x & e & Hx & He & _)]; [exact Hc|].
  pose proof (Hall x Hx) as Hr. unfold probe_returns in Hr.
  rewrite He in Hr. discriminate.
Qed.

(** The run of [scan_network] with the monad unfolded. *)
Lemma scan_network_unfold (h : host) port timeout max_workers :
  scan_network h port timeout max_workers
  = if str_eqb (get_local_ip h) LOOPBACK then (Ok [], [])
    else
      match (if truthy (get_arp_ips h)
             then probe_all h Fast (Z.of_nat (length (get_arp_ips h)) + 1)
                            (get_arp_ips h) port timeout []
             else sret []) with
      | (Ok found_ips, l1) =>
          if truthy found_ips
          then (Ok found_ips, NeighborCache (get_arp_ips h) :: l1)
          else
            ((probe_all h Slow max_workers (sweep h) port timeout
                        found_ips).1,
             NeighborCache (get_arp_ips h)
               :: l1 ++ (probe_all h Slow max_workers (sweep h) port timeout
                                   found_ips).2)
      | (Raise e, l1) => (Raise e, NeighborCache (get_arp_ips h) :: l1)
      end.
Proof.
  unfold scan_network, sweep.
  destruct (str_eqb (get_local_ip h) LOOPBACK); [reflexivity|].
  cbn [sbind tell].
  destruct (if truthy (get_arp_ips h)
            then probe_all h Fast (Z.of_nat (length (get_arp_ips h)) + 1)
                           (get_arp_ips h) port timeout []
            else sret []) as [[found_ips|e] l1]; cbn [sbind]; [|reflexivity].
  destruct (truthy found_ips); cbn [sret].
  - rewrite app_nil_r. reflexivity.
  - match goal with
    | |- context [probe_all h Slow max_workers ?l port timeout found_ips] =>
        destruct (probe_all h Slow max_workers l port timeout found_ips)
          as [r l2]
    end. reflexivity.
Qed.

Lemma scan_network_fast (h : host) port timeout max_workers :
  get_local_ip h <> LOOPBACK ->
  (forall ip, ip ∈ get_arp_ips h -> probe_returns h port timeout ip = true) ->
  List.filter (port_open h port timeout) (get_arp_ips h) <> [] ->
  scan_network h port timeout max_workers
  = (Ok (List.filter (port_open h port timeout) (get_arp_ips h)),
     NeighborCache (get_arp_ips h) :: map (Probe Fast) (get_arp_ips h)).
Proof.
  intros Hl Ht Hf. rewrite scan_network_unfold.
  apply str_eqb_neq in Hl. rewrite Hl, (fast_path_run _ _ _ Ht).
  apply truthy_true in Hf. rewrite Hf. reflexivity.
Qed.

Lemma scan_network_slow (h : host) port timeout max_workers :
  get_local_ip h <> LOOPBACK ->
  (forall ip, ip ∈ get_arp_ips h -> probe_returns h port timeout ip = true) ->
  List.filter (port_open h port timeout) (get_arp_ips h) = [] ->
  scan_network h port timeout max_workers
  = ((probe_all h Slow max_workers (sweep h) port timeout []).1,
     NeighborCache (get_arp_ips h) :: map (Probe Fast) (get_arp_ips h)
       ++ (probe_all h Slow max_workers (sweep h) port timeout []).2).
Proof.
  intros Hl Ht Hf. rewrite scan_network_unfold.
  apply str_eqb_neq in Hl. rewrite Hl, (fast_path_run _ _ _ Ht), Hf.
  reflexivity.
Qed.

(** When a fast-path probe raises, the scan raises what one of these
    probes raises, and ends there. *)
Lemma scan_network_fast_raises (h : host) port timeout max_workers ip e :
  get_local_ip h <> LOOPBACK ->
  ip ∈ get_arp_ips h ->
  check_port h ip port timeout = Raise e ->
  exists ip' e',
    ip' ∈ get_arp_ips h /\ check_port h ip' port timeout = Raise e' /\
    scan_network h port timeout max_workers
    = (Raise e',
       NeighborCache (get_arp_ips h) :: map (Probe Fast) (get_arp_ips h)).
Proof.
  intros Hl Hip He. rewrite scan_network_unfold.
  apply str_eqb_neq in Hl. rewrite Hl.
  destruct (fast_path_cases h port timeout)
    as [[Hall _]|(x & e' & Hx & He' & Hc)].
  - pose proof (Hall ip Hip) as Hr. unfold probe_returns in Hr.
    rewrite He in Hr. discriminate.
  - rewrite Hc. exists x, e'. split; [exact Hx|]. split; [exact He'|].
    reflexivity.
Qed.

(** What any run records: nothing on the loopback address; otherwise the
    neighbor-cache query, the probes of the candidates and then, at most, the
    probes of the sweep. *)
Lemma fast_log (h : host) port timeout :
  (if truthy (get_arp_ips h)
   then probe_all h Fast (Z.of_nat (length (get_arp_ips h)) + 1)
                  (get_arp_ips h) port timeout []
   else sret []).2
  = map (Probe Fast) (get_arp_ips h).
Proof.
  destruct (fast_path_cases h port timeout) as [[_ Hc]|(x & e & _ & _ & Hc)];
    exact (f_equal snd Hc).
Qed.

Lemma scan_network_log (h : host) port timeout max_workers :
  (get_local_ip h = LOOPBACK /\
   (scan_network h port timeout max_workers).2 = []) \/
  (get_local_ip h <> LOOPBACK /\
   exists slow,
     (scan_network h port timeout max_workers).2
     = NeighborCache (get_arp_ips h)
         :: map (Probe Fast) (get_arp_ips h) ++ map (Probe Slow) slow /\
     (slow = [] \/ slow = sweep h)).
Proof.
  destruct (decide (get_local_ip h = LOOPBACK)) as [Hl|Hl].
  { left. split; [exact Hl|].
    rewrite (scan_network_loopback _ _ _ _ Hl). reflexivity. }
  right. split; [exact Hl|]. rewrite scan_network_unfold.
  apply str_eqb_neq in Hl. rewrite Hl.
  destruct (if truthy (get_arp_ips h)
            then probe_all h Fast (Z.of_nat (length (get_arp_ips h)) + 1)
                           (get_arp_ips h) port timeout []
            else sret []) as [[found_ips|e] l1] eqn:E;
    apply (f_equal snd) in E; cbn [snd] in E;
    assert (l1 = map (Probe Fast) (get_arp_ips h)) as ->
      by (rewrite <- E; exact (fast_log h port timeout)).
  - destruct (truthy found_ips); cbn [snd].
    + exists []. split; [|left; reflexivity].
      cbn [map]. rewrite app_nil_r. reflexivity.
    + unfold probe_all. destruct (max_workers <=? 0); cbn [snd].
      * exists []. split; [reflexivity | left; reflexivity].
      * exists (sweep h). split; [reflexivity | right; reflexivity].
  - exists []. cbn [snd map]. rewrite app_nil_r.
    split; [reflexivity | left; reflexivity].
Qed.



(** ** The subnet prefix *)

Lemma split_go_dot (cur : str) c (s : str) :
  split_go DOT 0 cur (c :: s)
  = if (c =? 46)%N then rev cur :: split_go DOT 0 [] s
    else split_go DOT 0 (c :: cur) s.
Proof.
  change DOT with [46%N]. cbn [split_go startswith length Nat.sub].
  destruct (c =? 46)%N; cbn [andb]; [|reflexivity].
  destruct s; reflexivity.
Qed.

Lemma split_go_dotless (cur x : str) :
  dotless x = true -> split_go DOT 0 cur x = [rev cur ++ x].
Proof.
  revert cur. induction x as [|c x IH]; intros cur H.
  - cbn [split_go]. rewrite app_nil_r. reflexivity.
  - cbn [dotless forallb] in H. apply andb_true_iff in H as [Hc Hx].
    apply negb_true_iff in Hc. rewrite split_go_dot, Hc, (IH _ Hx).
    cbn [rev]. rewrite <- app_assoc. reflexivity.
Qed.

Lemma split_go_last_dot (cur p x : str) :
  dotless x = true ->
  exists parts,
    split_go DOT 0 cur (p ++ DOT ++ x) = parts ++ [x] /\
    parts <> [] /\ join DOT parts = rev cur ++ p.
Proof.
  intros Hx. revert cur. induction p as [|c p IH]; intros cur.
  - change ([] ++ DOT ++ x) with (46%N :: x).
    rewrite split_go_dot, N.eqb_refl, (split_go_dotless _ _ Hx).
    exists [rev cur]. cbn [rev app join]. rewrite app_nil_r.
    split; [reflexivity|]. split; [discriminate | reflexivity].
  - change ((c :: p) ++ DOT ++ x) with (c :: (p ++ DOT ++ x)).
    rewrite split_go_dot. destruct (c =? 46)%N eqn:Hc.
    + apply N.eqb_eq in Hc as ->.
      destruct (IH []) as (parts & Hs & Hne & Hj). rewrite Hs.
      exists (rev cur :: parts). split; [reflexivity|].
      split; [discriminate|].
      destruct parts as [|q parts]; [contradiction|].
      cbn [join]. cbn [join rev app] in Hj. rewrite Hj. reflexivity.
    + destruct (IH (c :: cur)) as (parts & Hs & Hne & Hj). rewrite Hs.
      exists parts. split; [reflexivity|]. split; [exact Hne|].
      rewrite Hj. cbn [rev]. rewrite <- app_assoc. reflexivity.
Qed.

Lemma subnet_of_app_dot (p x : str) :
  dotless x = true -> subnet_of (p ++ DOT ++ x) = p.
Proof.
  intros Hx. unfold subnet_of, split, all_but_last.
  destruct (split_go_last_dot [] p x Hx) as (parts & Hs & _ & Hj).
  rewrite Hs, removelast_last. exact Hj.
Qed.

Lemma subnet_of_dotless (x : str) : dotless x = true -> subnet_of x = [].
Proof.
  intros Hx. unfold subnet_of, split, all_but_last.
  rewrite (split_go_dotless _ _ Hx). reflexivity.
Qed.

End ScannerFacts.

Module ScannerTheorems.
Import Py PyFacts Scanner ScannerMore ScannerFacts ScannerExamples.




(** C5 (the code departs from it): with the local address 192.168.1.5 the
    loop of [get_arp_ips] keeps the neighbor 192.168.10.7, which is not on
    the local /24 network: the prefix it tests, ["192.168.1"], has no
    closing dot. *)
Theorem arp_filter_crosses_subnet :
  same_slash24 (lit "192.168.10.7") (lit "192.168.1.5") = false /\
  subnet_of (lit "192.168.1.5") = lit "192.168.1" /\
  lit "192.168.10.7"
    ∈ arp_candidates (lit "192.168.1.5")
                     [lit "192.168.1.7"; lit "192.168.10.7"] /\
  get_local_ip two_neighbors = lit "192.168.1.5" /\
  lit "192.168.10.7" ∈ get_arp_ips two_neighbors.
Proof.
  split; [vm_compute; reflexivity|].
  split; [vm_compute; reflexivity|].
  split.
  - apply arp_candidates_elem. split; [right; left|].
    split; [vm_compute; reflexivity | discriminate].
  - split; [reflexivity|].
    unfold get_arp_ips. cbn [arp_a two_neighbors].
    apply arp_candidates_elem. split.
    + vm_compute. right. left.
    + split; [vm_compute; reflexivity | discriminate].
Qed.








End ScannerTheorems.

(* ===================================================================== *)
(** * The step-streaming handler *)
(* ===================================================================== *)

Module ServerFacts.
Import Py Server.

Section Shape.
Variable executor : nat -> nat -> step_outcome.

(** One turn of the step loop, with the monad unfolded. *)
Lemma step_loop_unfold (fuel : nat) (r : StepResult) (w : world) :
  step_loop executor fuel r w
  = if finished r then (Val r, w)
    else match fuel with
         | O => (Fuel, w)
         | S fuel' =>
             match executor (pred (agents w)) (calls w) with
             | Returns r' =>
                 step_loop executor fuel' r'
                   {| trace := trace w ++ [Called (pred (agents w)) None;
                                           Sent (Step r')];
                      agents := agents w; calls := S (calls w) |}
             | Raises d =>
                 (Exc (Exception d),
                  {| trace := trace w ++ [Called (pred (agents w)) None];
                     agents := agents w; calls := S (calls w) |})
             end
         end.
Proof.
  destruct fuel as [|fuel]; cbn [step_loop]; destruct (finished r);
    try reflexivity.
  unfold mbind at 1. unfold run_step.
  destruct (executor (pred (agents w)) (calls w)) as [r'|d]; [|reflexivity].
  unfold mbind, send_json, log. cbn [trace agents calls].
  rewrite <- app_assoc. reflexivity.
Qed.

(** The step loop calls and sends in turn; only a raising call is left
    without its event. *)
Lemma step_loop_trace (fuel : nat) (r : StepResult) (w : world) :
  exists results tail,
    trace (step_loop executor fuel r w).2
    = trace w ++ stepping (pred (agents w)) None results ++ tail /\
    agents (step_loop executor fuel r w).2 = agents w /\
    match (step_loop executor fuel r w).1 with
    | Val _ | Fuel => tail = []
    | Exc _ => tail = [Called (pred (agents w)) None]
    | Pending => False
    end.
Proof.
  revert r w. induction fuel as [|fuel IH]; intros r w;
    rewrite step_loop_unfold.
  - destruct (finished r); exists [], []; cbn [fst snd stepping app];
      rewrite app_nil_r; auto.
  - destruct (finished r).
    { exists [], []. cbn [fst snd stepping app]. rewrite app_nil_r. auto. }
    destruct (executor (pred (agents w)) (calls w)) as [r'|d].
    + match goal with
      | |- context [step_loop executor fuel r' ?w1] =>
          destruct (IH r' w1) as (results & tail & Ht & Ha & Ho)
      end.
      cbn [trace agents calls] in Ht, Ha, Ho.
      exists (r' :: results), tail. split; [|split; assumption].
      rewrite Ht. cbn [stepping]. rewrite <- !app_assoc. reflexivity.
    + exists [], [Called (pred (agents w)) None].
      cbn [fst snd stepping app trace agents]. auto.
Qed.

Lemma traceback_unbound : bound "traceback" = false.
Proof. reflexivity. Qed.

(** One task, with the monad unfolded. *)
Lemma run_task_unfold (fuel : nat) (req : request) (w : world) :
  run_task executor fuel req w
  = match executor (pred (agents w)) (calls w) with
    | Raises d =>
        (Exc (NameError "traceback"),
         {| trace := trace w ++ [Sent (Info (lit "Starting task..."));
                                 Called (pred (agents w)) (task req);
                                 Sent (Error d)];
            agents := agents w; calls := S (calls w) |})
    | Returns r =>
        match step_loop executor fuel r
                {| trace := trace w ++ [Sent (Info (lit "Starting task..."));
                                        Called (pred (agents w)) (task req);
                                        Sent (Step r)];
                   agents := agents w; calls := S (calls w) |} with
        | (Val r', w2) =>
            (Val tt,
             {| trace := trace w2 ++ [Sent (Finish (message_or_default r'))];
                agents := agents w2; calls := calls w2 |})
        | (Exc e, w2) =>
            (Exc (NameError "traceback"),
             {| trace := trace w2 ++ [Sent (Error (str_of_exn e))];
                agents := agents w2; calls := calls w2 |})
        | (Pending, w2) => (Pending, w2)
        | (Fuel, w2) => (Fuel, w2)
        end
    end.
Proof.
  unfold run_task, try_except.
  unfold mbind at 1. unfold send_json at 1, log at 1.
  unfold mbind at 1. unfold run_step at 1. cbn [trace agents calls].
  destruct (executor (pred (agents w)) (calls w)) as [r|d].
  - unfold mbind at 1. unfold send_json at 1, log at 1.
    cbn [trace agents calls]. unfold mbind at 1.
    rewrite <- !app_assoc. cbn [app].
    match goal with
    | |- context [step_loop executor fuel r ?w1] =>
        destruct (step_loop executor fuel r w1) as [[r'|e| |] w2]
    end; reflexivity.
  - cbn [is_Exception]. unfold mbind, send_json, log, traceback_print_exc.
    rewrite traceback_unbound. cbn [trace agents calls str_of_exn].
    rewrite <- !app_assoc. reflexivity.
Qed.

(** One task: the acknowledgement, then calls and step events in turn, then
    how the task ends: a finish event, an error event right after the call
    that raised, or nothing when the loop was cut off. *)
Lemma run_task_trace (fuel : nat) (req : request) (w : world) :
  exists results ending,
    trace (run_task executor fuel req w).2
    = trace w ++ Sent (Info (lit "Starting task..."))
        :: stepping (pred (agents w)) (task req) results ++ ending /\
    ((exists m, ending = [Sent (Finish m)]) \/
     (exists arg d, ending = [Called (pred (agents w)) arg; Sent (Error d)]) \/
     ending = []).
Proof.
  rewrite run_task_unfold.
  destruct (executor (pred (agents w)) (calls w)) as [r|d].
  - match goal with
    | |- context [step_loop executor fuel r ?w1] =>
        destruct (step_loop_trace fuel r w1) as (results & tail & Ht & Ha & Ho);
        destruct (step_loop executor fuel r w1) as [[r'|e| |] w2]
    end; cbn [fst snd trace agents calls] in *.
    + subst tail. exists (r :: results). eexists. split; [|left; eauto].
      rewrite Ht. cbn [stepping]. rewrite <- !app_assoc. reflexivity.
    + subst tail. exists (r :: results). eexists.
      split; [|right; left; eauto].
      rewrite Ht. cbn [stepping]. rewrite <- !app_assoc. reflexivity.
    + destruct Ho.
    + subst tail. exists (r :: results), []. split; [|auto].
      rewrite Ht. cbn [stepping]. rewrite <- !app_assoc. reflexivity.
  - exists []. eexists. split; [|right; left; eauto].
    cbn [snd trace stepping app]. reflexivity.
Qed.

(** One turn of the receive loop on a task-start message. *)
Lemma serve_task (fuel : nat) (req : request) (inbox : list frame)
      (w : world) :
  serve executor fuel (TaskStart req :: inbox) w
  = match run_task executor fuel req
            {| trace := trace w ++ [Received (TaskStart req);
                                    NewAgent (agents w)];
               agents := S (agents w); calls := 0 |} with
    | (Val _, w') => serve executor fuel inbox w'
    | (Exc e, w') => (Exc e, w')
    | (Pending, w') => (Pending, w')
    | (Fuel, w') => (Fuel, w')
    end.
Proof.
  cbn [serve]. unfold mbind at 1. unfold log at 1.
  unfold mbind at 1. unfold new_agent at 1. cbn [trace agents calls].
  rewrite <- app_assoc. cbn [app]. unfold mbind at 1.
  match goal with
  | |- context [run_task executor fuel req ?w1] =>
      destruct (run_task executor fuel req w1) as [[[]|e| |] w']
  end; reflexivity.
Qed.

Lemma endpoint_unfold (fuel : nat) (inbox : list frame) :
  websocket_endpoint executor fuel inbox connect
  = match serve executor fuel inbox
            {| trace := [Accepted]; agents := 0; calls := 0 |} with
    | (Exc e, w) => if is_WebSocketDisconnect e then (Val tt, w)
                    else (Exc e, w)
    | r => r
    end.
Proof.
  unfold websocket_endpoint, mbind, log, try_except, connect.
  cbn [trace agents calls app].
  destruct (serve executor fuel inbox
              {| trace := [Accepted]; agents := 0; calls := 0 |})
    as [[[]|e| |] w]; reflexivity.
Qed.

End Shape.

End ServerFacts.

Module ServerTheorems.
Import Py Server ServerFacts ServerExamples.

(** C2: when the step executor returns results with [finished = false]
    twice and then [finished = true], the connection receives the
    acknowledgement, exactly three step events carrying those results in
    order, then exactly one finish event, and nothing after it: the handler
    is back waiting for a message. The finish event carries the message of
    the last step, or ["Task completed"] when that step has no message (or
    an empty one). Each call of [step] after the first comes right after the
    event of the previous result; this holds for every executor. *)
Theorem session_step_ordering :
  (forall executor fuel req r1 r2 r3,
      executor 0%nat 0%nat = Returns r1 ->
      executor 0%nat 1%nat = Returns r2 ->
      executor 0%nat 2%nat = Returns r3 ->
      finished r1 = false -> finished r2 = false -> finished r3 = true ->
      (2 <= fuel)%nat ->
      let finish_message :=
        match message r3 with
        | Some (c :: m) => c :: m
        | Some [] => lit "Task completed"
        | None => lit "Task completed"
        end in
      (websocket_endpoint executor fuel [TaskStart req] connect).1 = Pending /\
      trace (websocket_endpoint executor fuel [TaskStart req] connect).2
      = [Accepted; Received (TaskStart req); NewAgent 0;
         Sent (Info (lit "Starting task..."));
         Called 0 (task req); Sent (Step r1);
         Called 0 None; Sent (Step r2);
         Called 0 None; Sent (Step r3);
         Sent (Finish finish_message)] /\
      sent_events
        (trace (websocket_endpoint executor fuel [TaskStart req] connect).2)
      = [Info (lit "Starting task..."); Step r1; Step r2; Step r3;
         Finish finish_message]) /\
  (forall executor fuel req w,
      exists results ending,
        trace (run_task executor fuel req w).2
        = trace w ++ Sent (Info (lit "Starting task..."))
            :: stepping (pred (agents w)) (task req) results ++ ending /\
        ((exists m, ending = [Sent (Finish m)]) \/
         (exists arg d,
             ending = [Called (pred (agents w)) arg; Sent (Error d)]) \/
         ending = [])).
Proof.
  split; [|intros; apply run_task_trace].
  intros executor fuel req r1 r2 r3 E1 E2 E3 F1 F2 F3 Hfuel finish_message.
  assert (finish_message = message_or_default r3) as ->.
  { unfold finish_message, message_or_default.
    destruct (message r3) as [[|c m]|]; reflexivity. }
  destruct fuel as [|[|fuel]]; [lia | lia |].
  rewrite endpoint_unfold, serve_task, run_task_unfold.
  cbn [trace agents calls pred app]. rewrite E1.
  rewrite step_loop_unfold, F1. cbn [trace agents calls pred app].
  rewrite E2.
  rewrite step_loop_unfold, F2. cbn [trace agents calls pred app].
  rewrite E3.
  rewrite step_loop_unfold, F3. cbn [trace agents calls serve].
  repeat split; reflexivity.
Qed.

(** A session whose last step carries the message ["done"], and one whose
    last step carries none. *)
Lemma session_step_ordering_witness :
  ((websocket_endpoint (scripted [Returns working; Returns working;
                                  Returns completed])
                       5 [TaskStart open_settings] connect).1 = Pending /\
   sent_events
     (trace (websocket_endpoint (scripted [Returns working; Returns working;
                                           Returns completed])
                                5 [TaskStart open_settings] connect).2)
   = [Info (lit "Starting task..."); Step working; Step working;
      Step completed; Finish (lit "done")]) /\
  ((websocket_endpoint (scripted [Returns working; Returns working;
                                  Returns completed_silently])
                       5 [TaskStart open_settings] connect).1 = Pending /\
   sent_events
     (trace (websocket_endpoint (scripted [Returns working; Returns working;
                                           Returns completed_silently])
                                5 [TaskStart open_settings] connect).2)
   = [Info (lit "Starting task..."); Step working; Step working;
      Step completed_silently; Finish (lit "Task completed")]).
Proof.
  split.
  - destruct (proj1 session_step_ordering
                (scripted [Returns working; Returns working;
                           Returns completed])
                5%nat open_settings working working completed
                eq_refl eq_refl eq_refl eq_refl eq_refl eq_refl
                ltac:(lia)) as (H1 & _ & H3).
    split; [exact H1 | exact H3].
  - destruct (proj1 session_step_ordering
                (scripted [Returns working; Returns working;
                           Returns completed_silently])
                5%nat open_settings working working completed_silently
                eq_refl eq_refl eq_refl eq_refl eq_refl eq_refl
                ltac:(lia)) as (H1 & _ & H3).
    split; [exact H1 | exact H3].
Defined.

(** C8: when the step executor returns a result with [finished = false] and
    raises on its second call, the connection receives the acknowledgement,
    exactly one step event, then exactly one error event carrying the
    description of the failure, and no step or finish event after it,
    whatever else arrives on the connection. *)
Theorem session_error_short_circuit executor fuel req r1 description inbox :
  executor 0%nat 0%nat = Returns r1 ->
  finished r1 = false ->
  executor 0%nat 1%nat = Raises description ->
  (1 <= fuel)%nat ->
  trace (websocket_endpoint executor fuel (TaskStart req :: inbox) connect).2
  = [Accepted; Received (TaskStart req); NewAgent 0;
     Sent (Info (lit "Starting task...")); Called 0 (task req);
     Sent (Step r1); Called 0 None; Sent (Error description)] /\
  sent_events
    (trace (websocket_endpoint executor fuel (TaskStart req :: inbox)
                               connect).2)
  = [Info (lit "Starting task..."); Step r1; Error description].
Proof.
  intros E1 F1 E2 Hfuel. destruct fuel as [|fuel]; [lia|].
  rewrite endpoint_unfold, serve_task, run_task_unfold.
  cbn [trace agents calls pred app]. rewrite E1.
  rewrite step_loop_unfold, F1. cbn [trace agents calls pred app].
  rewrite E2. cbn [is_WebSocketDisconnect str_of_exn snd trace].
  split; reflexivity.
Qed.

Lemma session_error_short_circuit_witness :
  trace (websocket_endpoint
           (scripted [Returns working; Raises (lit "device offline")])
           5 [TaskStart open_settings; TaskStart go_home] connect).2
  = [Accepted; Received (TaskStart open_settings); NewAgent 0;
     Sent (Info (lit "Starting task...")); Called 0 (task open_settings);
     Sent (Step working); Called 0 None;
     Sent (Error (lit "device offline"))] /\
  sent_events
    (trace (websocket_endpoint
              (scripted [Returns working; Raises (lit "device offline")])
              5 [TaskStart open_settings; TaskStart go_home] connect).2)
  = [Info (lit "Starting task..."); Step working;
     Error (lit "device offline")].
Proof.
  apply session_error_short_circuit; [reflexivity .. | lia].
Defined.

(** C4 (the code departs from it): after a session that finished, the next
    task-start message on the connection gets a session of its own; after a
    session that failed, the handler looks up [traceback], which the module
    never imports, and the [NameError] ends the handler: the next task-start
    message is never received and no session is run for it. *)
Theorem errored_session_ends_handler :
  let finishing := scripted [Returns completed] in
  let failing := scripted [Raises (lit "device offline")] in
  let inbox := [TaskStart open_settings; TaskStart go_home] in
  bound "traceback" = false /\
  (websocket_endpoint finishing 5 inbox connect).1 = Pending /\
  sent_events (trace (websocket_endpoint finishing 5 inbox connect).2)
  = [Info (lit "Starting task..."); Step completed; Finish (lit "done");
     Info (lit "Starting task..."); Step done_result;
     Finish (lit "Task completed")] /\
  (websocket_endpoint failing 5 inbox connect).1
  = Exc (NameError "traceback") /\
  trace (websocket_endpoint failing 5 inbox connect).2
  = [Accepted; Received (TaskStart open_settings); NewAgent 0;
     Sent (Info (lit "Starting task...")); Called 0 (task open_settings);
     Sent (Error (lit "device offline"))] /\
  agents (websocket_endpoint failing 5 inbox connect).2 = 1%nat.
Proof. vm_compute. repeat split; reflexivity. Qed.

End ServerTheorems.

(* ===================================================================== *)
(** * More on the decoder, the request and the message builder *)
(* ===================================================================== *)

Module PyMoreFacts.
Import Py PyFacts.

Lemma first_occ_starts (s sub : str) k :
  first_occ s sub = Some k -> startswith (drop k s) sub = true.
Proof.
  revert k. induction s as [|c s IH]; intros k; cbn [first_occ].
  - destruct (startswith [] sub) eqn:E; [|discriminate].
    intros [= <-]. exact E.
  - destruct (startswith (c :: s) sub) eqn:E.
    + intros [= <-]. exact E.
    + destruct (first_occ s sub) as [k'|]; [|discriminate].
      intros [= <-]. apply IH. reflexivity.
Qed.

Lemma first_occ_le (s sub : str) j :
  startswith (drop j s) sub = true ->
  exists k, first_occ s sub = Some k /\ (k <= j)%nat.
Proof.
  revert j. induction s as [|c s IH]; intros j H; cbn [first_occ].
  - rewrite drop_nil in H. rewrite H. exists 0%nat. split; [reflexivity|lia].
  - destruct (startswith (c :: s) sub) eqn:E.
    + exists 0%nat. split; [reflexivity|lia].
    + destruct j as [|j]; [cbn [drop] in H; congruence|].
      cbn [drop] in H. destruct (IH j H) as (k & -> & Hk).
      exists (S k). split; [reflexivity|lia].
Qed.

Lemma first_occ_bound (s sub : str) k :
  first_occ s sub = Some k -> (k + length sub <= length s)%nat.
Proof.
  revert k. induction s as [|c s IH]; intros k; cbn [first_occ].
  - destruct (startswith [] sub) eqn:E; [|discriminate].
    intros [= <-]. apply startswith_app in E as [r Hr].
    apply (f_equal length) in Hr. rewrite length_app in Hr.
    cbn [length] in *. lia.
  - destruct (startswith (c :: s) sub) eqn:E.
    + intros [= <-]. apply startswith_app in E as [r Hr].
      apply (f_equal length) in Hr. rewrite length_app in Hr. lia.
    + destruct (first_occ s sub) as [k'|]; [|discriminate].
      intros [= <-]. specialize (IH k' eq_refl). cbn [length]. lia.
Qed.

Lemma rstrip_id (s : str) :
  (forall c, last s = Some c -> isspace c = false) -> rstrip s = s.
Proof.
  induction s as [|c s IH]; intros H; [reflexivity|].
  rewrite rstrip_cons. destruct s as [|d s].
  - cbn [rstrip]. rewrite (H c eq_refl). reflexivity.
  - rewrite IH by exact H. reflexivity.
Qed.

Lemma lstrip_id (s : str) :
  (forall c, head s = Some c -> isspace c = false) -> lstrip s = s.
Proof.
  destruct s as [|c s]; intros H; [reflexivity|].
  cbn [lstrip]. rewrite (H c eq_refl). reflexivity.
Qed.

Lemma strip_trimmed (s : str) : trimmed s -> strip s = s.
Proof.
  intros [Hh Hl]. unfold strip. rewrite (rstrip_id _ Hl). apply lstrip_id, Hh.
Qed.

Lemma last_drop_Some {A : Type} (l : list A) n c :
  last (drop n l) = Some c -> last l = Some c.
Proof.
  revert l. induction n as [|n IH]; intros l; [rewrite drop_0; trivial|].
  destruct l as [|x l]; [discriminate|]. cbn [drop]. intros H.
  specialize (IH _ H). destruct l; [discriminate | exact IH].
Qed.

(** What [rstrip] removes is whitespace. *)
Lemma rstrip_split (s : str) :
  exists ws, s = rstrip s ++ ws /\ forallb isspace ws = true.
Proof.
  induction s as [|c s (ws & Hs & Hws)].
  - exists []. split; reflexivity.
  - rewrite rstrip_cons. destruct (rstrip s) as [|d r] eqn:E.
    + destruct (isspace c) eqn:Hc.
      * exists (c :: ws). cbn [app] in *. split; [congruence|].
        cbn [forallb]. rewrite Hc. exact Hws.
      * exists ws. cbn [app] in *. split; [congruence | exact Hws].
    + exists ws. split; [|exact Hws]. cbn [app]. f_equal. exact Hs.
Qed.

Lemma lstrip_spaces (a x : str) :
  forallb isspace a = true -> lstrip (a ++ x) = lstrip x.
Proof.
  induction a as [|c a IH]; [reflexivity|]. cbn [forallb app lstrip].
  intros [Hc Ha]%andb_true_iff. rewrite Hc. exact (IH Ha).
Qed.

Lemma rstrip_all_spaces (b : str) : forallb isspace b = true -> rstrip b = [].
Proof.
  induction b as [|c b IH]; [reflexivity|]. cbn [forallb].
  intros [Hc Hb]%andb_true_iff. rewrite rstrip_cons, (IH Hb), Hc. reflexivity.
Qed.

Lemma rstrip_spaces (x b : str) :
  forallb isspace b = true -> rstrip (x ++ b) = rstrip x.
Proof.
  intros Hb. induction x as [|c x IH]; [exact (rstrip_all_spaces _ Hb)|].
  cbn [app]. rewrite !rstrip_cons, IH. reflexivity.
Qed.

Lemma strip_pad (a c b : str) :
  forallb isspace a = true -> forallb isspace b = true ->
  strip (a ++ c ++ b) = strip c.
Proof.
  intros Ha Hb. unfold strip.
  rewrite app_assoc, (rstrip_spaces _ _ Hb).
  destruct (rstrip_split c) as (ws & Hc & Hws).
  destruct (rstrip c) as [|d r] eqn:E.
  - cbn [app] in Hc. subst c.
    assert (forallb isspace (a ++ ws) = true) as H
        by (rewrite forallb_app, Ha, Hws; reflexivity).
    rewrite (rstrip_all_spaces _ H). reflexivity.
  - assert (exists e, last (d :: r) = Some e /\ isspace e = false)
      as (e & He & Hs).
    { destruct (last (d :: r)) as [e|] eqn:El.
      - exists e. split; [reflexivity|]. apply (rstrip_last c). rewrite E.
        exact El.
      - apply last_None in El. discriminate. }
    rewrite Hc at 1. rewrite app_assoc, (rstrip_spaces _ _ Hws).
    assert (last (a ++ d :: r) = Some e) as Hl.
    { rewrite last_app, He. reflexivity. }
    assert (rstrip (a ++ d :: r) = a ++ d :: r) as ->.
    { apply rstrip_id. intros x Hx. rewrite Hl in Hx.
      injection Hx as <-. exact Hs. }
    apply lstrip_spaces, Ha.
Qed.

End PyMoreFacts.

Module ClientExtra.
Import Py PyFacts PyMoreFacts Client ClientRequest MessageBuilder.

(** ** The loop over the action markers *)

Lemma marker_fold (content : str) (ms : list str) (acc : Z) :
  let r :=
    fold_left
      (fun first_marker_pos marker =>
         let pos := find content marker in
         if negb (pos =? -1) && (pos <? first_marker_pos)
         then pos else first_marker_pos)
      ms acc in
  r <= acc /\
  (r = acc \/
   exists m k, m ∈ ms /\ first_occ content m = Some k /\ r = Z.of_nat k) /\
  (forall m k, m ∈ ms -> first_occ content m = Some k -> r <= Z.of_nat k).
Proof.
  cbv zeta.
  set (F := fun (first_marker_pos : Z) (marker : str) =>
              if negb (find content marker =? -1)
                 && (find content marker <? first_marker_pos)
              then find content marker else first_marker_pos).
  revert acc. induction ms as [|m ms IH]; intros acc; cbn [fold_left].
  - split; [lia|]. split; [left; reflexivity|]. intros m k H. inversion H.
  - assert (F acc m <= acc /\
            (F acc m = acc \/
             exists k, first_occ content m = Some k /\ F acc m = Z.of_nat k) /\
            (forall k, first_occ content m = Some k -> F acc m <= Z.of_nat k))
      as (F1 & F2 & F3).
    { unfold F. rewrite find_occ.
      destruct (first_occ content m) as [k|].
      - replace (Z.of_nat k =? -1) with false
          by (symmetry; apply Z.eqb_neq; lia).
        cbn [negb andb]. destruct (Z.of_nat k <? acc) eqn:Hlt.
        + apply Z.ltb_lt in Hlt. split; [lia|].
          split; [right; exists k; auto|]. intros k' [= <-]. lia.
        + apply Z.ltb_ge in Hlt. split; [lia|].
          split; [left; reflexivity|]. intros k' [= <-]. lia.
      - rewrite Z.eqb_refl. cbn [negb andb]. split; [lia|].
        split; [left; reflexivity|]. intros k' [=]. }
    destruct (IH (F acc m)) as (H1 & H2 & H3).
    split; [lia|]. split.
    + destruct H2 as [H2|(m' & k' & Hm & Hk & Hr)].
      * destruct F2 as [F2|(k & Hk & Hr)].
        -- left. lia.
        -- right. exists m, k. split; [left|]. split; [exact Hk | lia].
      * right. exists m', k'. split; [right; exact Hm|]. split; assumption.
    + intros m' k' [->|Hm]%elem_of_cons Hk.
      * specialize (F3 _ Hk). lia.
      * exact (H3 _ _ Hm Hk).
Qed.

Lemma first_marker_spec (content : str) :
  first_marker content <= Z.of_nat (length content) /\
  (first_marker content = Z.of_nat (length content) \/
   exists m k, m ∈ action_markers /\ first_occ content m = Some k
               /\ first_marker content = Z.of_nat k) /\
  (forall m k, m ∈ action_markers -> first_occ content m = Some k ->
               first_marker content <= Z.of_nat k).
Proof. exact (marker_fold content action_markers _). Qed.

Lemma marker_head (m : str) :
  m ∈ action_markers ->
  exists c m', m = c :: m' /\ isspace c = false.
Proof.
  unfold action_markers.
  intros [->|[->|[->|H]%elem_of_cons]%elem_of_cons]%elem_of_cons;
    [eexists _, _; split; reflexivity .. | inversion H].
Qed.

(** A marker that occurs makes [first_marker] the index of an occurrence
    of a marker, before the end of the text. *)
Lemma first_marker_found (content : str) m k :
  m ∈ action_markers -> first_occ content m = Some k ->
  exists m0 k0,
    m0 ∈ action_markers /\ first_occ content m0 = Some k0 /\
    first_marker content = Z.of_nat k0 /\ (k0 <= k)%nat /\
    (k0 < length content)%nat.
Proof.
  intros Hm Hk. destruct (first_marker_spec content) as (H1 & H2 & H3).
  pose proof (H3 _ _ Hm Hk) as Hle.
  pose proof (first_occ_bound _ _ _ Hk) as Hb.
  destruct (marker_head _ Hm) as (c & m' & -> & _). cbn [length] in Hb.
  destruct H2 as [H2|(m0 & k0 & Hm0 & Hk0 & Hr)]; [lia|].
  exists m0, k0. repeat split; try assumption; lia.
Qed.

Lemma existsb_markers (f : str -> bool) :
  existsb f action_markers = true ->
  exists m, m ∈ action_markers /\ f m = true.
Proof.
  intros (m & Hin & Hf)%existsb_exists. exists m.
  split; [apply list_elem_of_In, Hin | exact Hf].
Qed.

(** ** The decoder, rule by rule *)

(** X1: with no answer delimiter but both rationale markers in the trimmed
    input, the decoder splits at the first [</think>]: thinking is the text
    before it with [<think>] removed, action is the text after it, both
    trimmed. *)
Theorem decode_think_rule (content : str) :
  contains ANSWER_OPEN (strip content) = false ->
  contains THINK_OPEN (strip content) = true ->
  contains THINK_CLOSE (strip content) = true ->
  exists before after : str,
    strip content = before ++ THINK_CLOSE ++ after /\
    (forall j, (j < length before)%nat ->
               startswith (drop j (strip content)) THINK_CLOSE = false) /\
    parse_response content
    = Ok (strip (replace before THINK_OPEN []), strip after).
Proof.
  intros Ha To Tc. pose proof Tc as Ho.
  apply contains_occ in Ho as [k Hk].
  destruct (first_occ_split _ _ _ Hk) as [Hs Hj].
  exists (take k (strip content)),
         (drop (k + length THINK_CLOSE) (strip content)).
  split; [exact Hs|]. split.
  - intros j Hlt. apply Hj. rewrite length_take in Hlt. lia.
  - unfold parse_response.
    rewrite Ha, To, Tc, (ClientFacts.split_1_found _ _ _ Hk). reflexivity.
Qed.

Lemma decode_think_rule_witness :
  exists before after : str,
    strip (lit "<think>wait</think> do(tap,1,2) ")
    = before ++ THINK_CLOSE ++ after /\
    (forall j, (j < length before)%nat ->
       startswith (drop j (strip (lit "<think>wait</think> do(tap,1,2) ")))
                  THINK_CLOSE = false) /\
    parse_response (lit "<think>wait</think> do(tap,1,2) ")
    = Ok (strip (replace before THINK_OPEN []), strip after).
Proof. apply decode_think_rule; vm_compute; reflexivity. Defined.

(** The split of the third rule, from the place [first_marker] finds. *)
Lemma marker_split (content : str) m k :
  contains ANSWER_OPEN (strip content) = false ->
  contains THINK_OPEN (strip content) && contains THINK_CLOSE (strip content)
  = false ->
  m ∈ action_markers -> first_occ (strip content) m = Some k ->
  exists m0 k0,
    m0 ∈ action_markers /\ first_occ (strip content) m0 = Some k0 /\
    (k0 <= k)%nat /\
    first_marker (strip content) = Z.of_nat k0 /\
    parse_response content
    = Ok (rstrip (take k0 (strip content)), drop k0 (strip content)).
Proof.
  intros Ha Ht Hm Hk.
  destruct (first_marker_found _ _ _ Hm Hk)
    as (m0 & k0 & Hm0 & Hk0 & Hfm & Hle & Hlt).
  exists m0, k0. do 4 (split; [assumption|]).
  unfold parse_response. rewrite Ha, Ht, Hfm.
  replace (Z.of_nat k0 <? Z.of_nat (length (strip content))) with true
    by (symmetry; apply Z.ltb_lt; lia).
  unfold slice_to, slice_from. rewrite Nat2Z.id.
  destruct (trimmed_strip content) as [Hh Hl].
  assert (strip (drop k0 (strip content)) = drop k0 (strip content)) as ->.
  { apply strip_trimmed. split.
    - pose proof (first_occ_starts _ _ _ Hk0) as Hs.
      apply startswith_app in Hs as [r Hr].
      destruct (marker_head _ Hm0) as (c & m' & -> & Hc).
      rewrite Hr. cbn [app head]. intros c' [= <-]. exact Hc.
    - intros c Hc. apply Hl. exact (last_drop_Some _ _ _ Hc). }
  assert (strip (take k0 (strip content)) = rstrip (take k0 (strip content)))
    as ->; [|reflexivity].
  unfold strip at 1. apply lstrip_id. intros c Hc. apply Hh.
  destruct (rstrip_split (take k0 (strip content))) as (ws & Hw & _).
  destruct (rstrip (take k0 (strip content))) as [|d r];
    cbn [head] in Hc; [discriminate|]. injection Hc as ->.
  assert (head (take k0 (strip content)) = Some c) as Hhd
      by (rewrite Hw; reflexivity).
  destruct (strip content) as [|x t]; [rewrite take_nil in Hhd; discriminate|].
  destruct k0; cbn [take head] in *; [discriminate | exact Hhd].
Qed.

(** X2: with no tags and an action marker somewhere in the trimmed input,
    the decoder cuts at the earliest occurrence of any marker: action is the
    text from there on, unchanged, and begins with a marker; thinking is the
    text before it without its trailing whitespace; no marker occurs before
    the cut. *)
Theorem decode_marker_rule (content : str) :
  contains ANSWER_OPEN (strip content) = false ->
  contains THINK_OPEN (strip content) && contains THINK_CLOSE (strip content)
  = false ->
  existsb (fun m => contains m (strip content)) action_markers = true ->
  exists thinking ws action : str,
    parse_response content = Ok (thinking, action) /\
    strip content = thinking ++ ws ++ action /\
    forallb isspace ws = true /\
    (exists m, m ∈ action_markers /\ startswith action m = true) /\
    (forall m j, m ∈ action_markers -> (j < length (thinking ++ ws))%nat ->
                 startswith (drop j (strip content)) m = false).
Proof.
  intros Ha Ht Hm.
  apply existsb_markers in Hm as (m & Hm & Hc).
  apply contains_occ in Hc as [k Hk].
  destruct (marker_split _ _ _ Ha Ht Hm Hk)
    as (m0 & k0 & Hm0 & Hk0 & _ & Hfm & Hp).
  destruct (rstrip_split (take k0 (strip content))) as (ws & Hw & Hws).
  exists (rstrip (take k0 (strip content))), ws, (drop k0 (strip content)).
  split; [exact Hp|].
  split; [rewrite app_assoc, <- Hw; symmetry; apply take_drop|].
  split; [exact Hws|].
  split; [exists m0; split; [exact Hm0 | exact (first_occ_starts _ _ _ Hk0)]|].
  intros m' j Hm' Hj. rewrite <- Hw, length_take in Hj.
  destruct (startswith (drop j (strip content)) m') eqn:E; [|reflexivity].
  destruct (first_occ_le _ _ _ E) as (k' & Hk' & Hle).
  destruct (first_marker_spec (strip content)) as (_ & _ & H3).
  specialize (H3 _ _ Hm' Hk'). lia.
Qed.

Lemma decode_marker_rule_witness :
  exists thinking ws action : str,
    parse_response (lit "I will tap the button. do(tap,1,2)")
    = Ok (thinking, action) /\
    strip (lit "I will tap the button. do(tap,1,2)")
    = thinking ++ ws ++ action /\
    forallb isspace ws = true /\
    (exists m, m ∈ action_markers /\ startswith action m = true) /\
    (forall m j, m ∈ action_markers -> (j < length (thinking ++ ws))%nat ->
       startswith (drop j (strip (lit "I will tap the button. do(tap,1,2)")))
                  m = false).
Proof. apply decode_marker_rule; vm_compute; reflexivity. Defined.

(** X3: with no tags, a trimmed input that begins with ["{action="],
    ["do("] or ["finish("] is all action: thinking is empty and action is the
    whole trimmed text, whatever markers follow. *)
Theorem decode_leading_action (content : str) :
  contains ANSWER_OPEN (strip content) = false ->
  contains THINK_OPEN (strip content) && contains THINK_CLOSE (strip content)
  = false ->
  existsb (fun m => startswith (strip content) m) action_markers = true ->
  parse_response content = Ok ([], strip content).
Proof.
  intros Ha Ht Hm.
  apply existsb_markers in Hm as (m & Hm & Hs).
  assert (first_occ (strip content) m = Some 0%nat) as Hk.
  { destruct (strip content); cbn [first_occ]; rewrite Hs; reflexivity. }
  destruct (marker_split _ _ _ Ha Ht Hm Hk)
    as (m0 & k0 & _ & _ & Hle & _ & Hp).
  assert (k0 = 0%nat) as -> by lia.
  rewrite Hp, take_0, drop_0. reflexivity.
Qed.

Lemma decode_leading_action_witness :
  parse_response (lit " finish(message=do(it)) ")
  = Ok ([], strip (lit " finish(message=do(it)) ")).
Proof. apply decode_leading_action; vm_compute; reflexivity. Defined.

(** X4: whitespace around the raw content does not change what is
    decoded. *)
Theorem decode_ignores_outer_whitespace (before content after : str) :
  forallb isspace before = true ->
  forallb isspace after = true ->
  parse_response (before ++ content ++ after) = parse_response content.
Proof.
  intros Hb Ha. unfold parse_response.
  rewrite (strip_pad _ _ _ Hb Ha). reflexivity.
Qed.

Lemma decode_ignores_outer_whitespace_witness :
  parse_response ([10%N; 32%N] ++ lit "do(tap,1,2)" ++ [12288%N; 9%N])
  = parse_response (lit "do(tap,1,2)").
Proof. apply decode_ignores_outer_whitespace; reflexivity. Defined.

(** ** The request *)

Lemma add_chunk_text (raw_content : str) (c : chunk) :
  add_chunk raw_content c = raw_content ++ chunk_text c.
Proof.
  unfold add_chunk, chunk_text. destruct (choices c) as [|first _].
  - rewrite app_nil_r. reflexivity.
  - destruct (delta_content first) as [[|x text]|]; cbn [truthy default];
      rewrite ?app_nil_r; reflexivity.
Qed.

Lemma accumulate_from (response : list chunk) (raw_content : str) :
  fold_left add_chunk response raw_content
  = raw_content ++ concat (map chunk_text response).
Proof.
  revert raw_content. induction response as [|c response IH]; intros raw.
  - cbn. rewrite app_nil_r. reflexivity.
  - cbn [fold_left map concat]. rewrite IH, add_chunk_text, app_assoc.
    reflexivity.
Qed.

Lemma parse_response_returns (content : str) :
  exists p, parse_response content = Ok p.
Proof.
  unfold parse_response.
  destruct (contains ANSWER_OPEN (strip content)) eqn:Ha.
  { apply contains_occ in Ha as [k Hk].
    rewrite (ClientFacts.split_1_found _ _ _ Hk). eexists. reflexivity. }
  destruct (contains THINK_OPEN (strip content)
            && contains THINK_CLOSE (strip content)) eqn:Ht.
  { apply andb_true_iff in Ht as [_ Ht].
    apply contains_occ in Ht as [k Hk].
    rewrite (ClientFacts.split_1_found _ _ _ Hk). eexists. reflexivity. }
  destruct (first_marker (strip content) <? Z.of_nat (length (strip content)));
    [eexists; reflexivity|].
  destruct (startswith (strip content) (lit "{")
            || startswith (strip content) (lit "do(")
            || startswith (strip content) (lit "finish("));
    eexists; reflexivity.
Qed.

(** X5: [request] never fails on a stream: it decodes the concatenation, in
    arrival order, of the text of each chunk's first choice (chunks without
    choices or without text add nothing), and keeps that text unchanged as
    [raw_content]; so the response depends on the text only, not on how the
    service cut it into chunks. *)
Theorem request_decodes_concatenation (response : list chunk) :
  exists thinking action : str,
    parse_response (concat (map chunk_text response)) = Ok (thinking, action)
    /\ request response
       = Ok {| thinking := thinking; action := action;
               raw_content := concat (map chunk_text response) |}.
Proof.
  destruct (parse_response_returns (concat (map chunk_text response)))
    as [[thinking action] Hp].
  exists thinking, action. split; [exact Hp|].
  unfold request, accumulate. rewrite accumulate_from. cbn [app].
  rewrite Hp. reflexivity.
Qed.

(** ** The message builder *)

Lemma filter_twice {A : Type} (p : A -> bool) (l : list A) :
  List.filter p (List.filter p l) = List.filter p l.
Proof.
  induction l as [|x l IH]; [reflexivity|]. cbn [List.filter].
  destruct (p x) eqn:E; [|exact IH]. cbn [List.filter]. rewrite E, IH.
  reflexivity.
Qed.

Lemma filter_all {A : Type} (p : A -> bool) (l : list A) :
  forallb p (List.filter p l) = true.
Proof.
  induction l as [|x l IH]; [reflexivity|]. cbn [List.filter].
  destruct (p x) eqn:E; [|exact IH]. cbn [forallb]. rewrite E, IH.
  reflexivity.
Qed.

(** X6: removing the images from a user message gives the message that
    would have been built without an image, whatever the image was; an
    empty image string is no image. *)
Theorem remove_images_of_user_message (text : str) (image : option str) :
  remove_images_from_message (create_user_message text image)
  = create_user_message text None /\
  create_user_message text (Some []) = create_user_message text None.
Proof.
  split; [|reflexivity].
  destruct image as [[|c image]|]; reflexivity.
Qed.

(** X7: [remove_images_from_message] keeps the role, leaves a message whose
    content is a string as it is, leaves only the text items of a list
    content, in their order, and removing twice is removing once. *)
Theorem remove_images_keeps_text (m : message) :
  role (remove_images_from_message m) = role m /\
  match body m with
  | Plain _ => remove_images_from_message m = m
  | Parts items =>
      body (remove_images_from_message m) = Parts (List.filter is_text items)
      /\ forallb is_text (List.filter is_text items) = true
  end /\
  remove_images_from_message (remove_images_from_message m)
  = remove_images_from_message m.
Proof.
  destruct m as [r [s|items]]; unfold remove_images_from_message;
    cbn [body role].
  - repeat split; reflexivity.
  - rewrite filter_twice. repeat split; try reflexivity. apply filter_all.
Qed.

End ClientExtra.

(* ===================================================================== *)
(** * More on the discovery engine *)
(* ===================================================================== *)

Module ScannerExtra.
Import Py PyFacts Scanner ScannerFacts ScannerExamples ScannerMore.

(** ** The subnet prefix *)

(** X8: the subnet prefix is the local address up to its last dot, the dot
    left out; for an address with no dot it is the empty string. *)
Theorem subnet_of_last_dot (p x : str) :
  dotless x = true ->
  subnet_of (p ++ DOT ++ x) = p /\ subnet_of x = [].
Proof.
  intros Hx.
  split; [exact (subnet_of_app_dot p x Hx) | exact (subnet_of_dotless x Hx)].
Qed.

Lemma subnet_of_last_dot_witness :
  subnet_of (lit "192.168.1" ++ DOT ++ lit "5") = lit "192.168.1" /\
  subnet_of (lit "5") = [].
Proof. apply subnet_of_last_dot. reflexivity. Defined.

(** ** The neighbor-cache candidates *)

(** X9: [get_arp_ips] returns, without repetition, exactly the addresses
    the pattern finds in the output of [arp -a] that begin with the subnet
    prefix and differ from the local address; none when the command
    fails. *)
Theorem get_arp_ips_exactly (h : host) :
  NoDup (get_arp_ips h) /\
  forall ip,
    ip ∈ get_arp_ips h <->
    (exists output, arp_a h = Some output /\ ip ∈ findall_ip output) /\
    startswith ip (subnet_of (get_local_ip h)) = true /\
    ip <> get_local_ip h.
Proof. split; [apply get_arp_ips_NoDup | apply get_arp_ips_elem]. Qed.

(** X10: every neighbor on the local /24 network is a candidate: when the
    local address is [p.x] and the output of [arp -a] lists [p.y] with
    [y] other than [x], [get_arp_ips] returns [p.y]. *)
Theorem same_subnet_neighbors_kept (h : host) (output p x y : str) :
  arp_a h = Some output ->
  get_local_ip h = p ++ DOT ++ x ->
  dotless x = true ->
  y <> x ->
  p ++ DOT ++ y ∈ findall_ip output ->
  p ++ DOT ++ y ∈ get_arp_ips h.
Proof.
  intros Ha Hl Hx Hy Hin. unfold get_arp_ips. rewrite Ha.
  apply arp_candidates_elem. split; [exact Hin|].
  rewrite Hl, (subnet_of_app_dot p x Hx). split.
  - apply startswith_app. eauto.
  - intros E. apply app_inv_head in E. apply app_inv_head in E.
    contradiction.
Qed.

Lemma same_subnet_neighbors_kept_witness :
  lit "192.168.1" ++ DOT ++ lit "7" ∈ get_arp_ips two_neighbors.
Proof.
  apply (same_subnet_neighbors_kept two_neighbors _ (lit "192.168.1")
           (lit "5") (lit "7") eq_refl eq_refl eq_refl).
  - discriminate.
  - vm_compute. left.
Defined.

(** ** What a scan probes and returns *)

Lemma probed_probes (ph : phase) (ips : list str) :
  probed (map (Probe ph) ips) = ips.
Proof. induction ips as [|ip ips IH]; [reflexivity|]. cbn. f_equal. exact IH. Qed.

Lemma probed_app (l1 l2 : list event) :
  probed (l1 ++ l2) = probed l1 ++ probed l2.
Proof.
  induction l1 as [|[c|ph ip] l1 IH]; cbn [app probed]; [reflexivity|exact IH|].
  cbn [app]. f_equal. exact IH.
Qed.

(** What any run has probed: nothing, the candidates, or the candidates
    and then the sweep. *)
Lemma probed_cases (h : host) port timeout max_workers :
  probed (scan_network h port timeout max_workers).2 = [] \/
  probed (scan_network h port timeout max_workers).2 = get_arp_ips h \/
  probed (scan_network h port timeout max_workers).2
  = get_arp_ips h ++ sweep h.
Proof.
  destruct (scan_network_log h port timeout max_workers)
    as [[_ ->]|(_ & slow & -> & [-> | ->])].
  - left. reflexivity.
  - right. left. cbn [probed map]. rewrite app_nil_r. apply probed_probes.
  - right. right. cbn [probed]. rewrite probed_app, !probed_probes.
    reflexivity.
Qed.

Lemma local_not_candidate (h : host) : get_local_ip h ∉ get_arp_ips h.
Proof.
  intros H. apply get_arp_ips_elem in H as (_ & _ & H). contradiction.
Qed.

Lemma sweep_elem (h : host) ip :
  ip ∈ sweep h ->
  (ip ∉ get_arp_ips h) /\ ip <> get_local_ip h.
Proof.
  unfold sweep. intros [_ H]%elem_of_filter_bool.
  apply andb_true_iff in H as [H1 H2].
  apply negb_true_iff in H1, H2. split.
  - intros Hin. apply str_in_elem in Hin. congruence.
  - apply str_eqb_neq. exact H2.
Qed.

(** X11: whatever its arguments, a scan probes no address twice and never
    probes the local address. *)
Theorem probes_distinct_not_local (h : host) port timeout max_workers :
  NoDup (probed (scan_network h port timeout max_workers).2) /\
  get_local_ip h ∉ probed (scan_network h port timeout max_workers).2.
Proof.
  destruct (probed_cases h port timeout max_workers) as [->|[->| ->]].
  - split; [constructor | intros H; inversion H].
  - split; [apply get_arp_ips_NoDup | apply local_not_candidate].
  - split.
    + apply NoDup_app. split; [apply get_arp_ips_NoDup|].
      split; [|apply sweep_NoDup].
      intros ip Hin Hs. apply sweep_elem in Hs as [Hs _]. contradiction.
    + intros [H|H]%elem_of_app.
      * exact (local_not_candidate h H).
      * apply sweep_elem in H as [_ H]. contradiction.
Qed.

Lemma NoDup_filter_bool {A : Type} (p : A -> bool) (l : list A) :
  NoDup l -> NoDup (List.filter p l).
Proof.
  intros H. apply NoDup_ListNoDup, List.NoDup_filter, NoDup_ListNoDup, H.
Qed.

(** How any run ends: it returns nothing, the open candidates or the open
    addresses of the sweep; or it raises when the pool gets no worker; or it
    raises what the probe of an address it has probed raises. *)
Lemma scan_outcome_cases (h : host) port timeout max_workers :
  (exists found,
      (scan_network h port timeout max_workers).1 = Ok found /\
      (found = [] \/
       found = List.filter (port_open h port timeout) (get_arp_ips h) \/
       found = List.filter (port_open h port timeout) (sweep h))) \/
  (max_workers <= 0 /\
   (scan_network h port timeout max_workers).1 = Raise ValueError) \/
  (exists ip e,
      ip ∈ probed (scan_network h port timeout max_workers).2 /\
      check_port h ip port timeout = Raise e /\
      (scan_network h port timeout max_workers).1 = Raise e).
Proof.
  destruct (decide (get_local_ip h = LOOPBACK)) as [Hl|Hl].
  { rewrite (scan_network_loopback _ _ _ _ Hl). left. exists [].
    split; [reflexivity | left; reflexivity]. }
  destruct (fast_path_cases h port timeout)
    as [[Hall _]|(x & e & Hx & He & _)].
  - destruct (List.filter (port_open h port timeout) (get_arp_ips h))
      as [|a fast] eqn:Hf.
    + rewrite (scan_network_slow _ _ _ _ Hl Hall Hf). cbn [fst snd].
      destruct (Z.leb_spec max_workers 0) as [Hw|Hw].
      * right. left. split; [exact Hw|]. unfold probe_all.
        replace (max_workers <=? 0) with true
          by (symmetry; apply Z.leb_le; exact Hw).
        reflexivity.
      * destruct (probe_all_cases h Slow max_workers (sweep h) port timeout
                    Hw (sweep_nonempty h))
          as [[_ Hc]|(y & e & Hy & He & Hc)]; rewrite Hc; cbn [fst snd].
        -- left. eexists. split; [reflexivity|]. right. right. reflexivity.
        -- right. right. exists y, e. split; [|split; [exact He|reflexivity]].
           cbn [probed]. rewrite probed_app, !probed_probes.
           apply elem_of_app. right. exact Hy.
    + assert (List.filter (port_open h port timeout) (get_arp_ips h) <> [])
        as Hne by (rewrite Hf; discriminate).
      rewrite (scan_network_fast _ _ _ _ Hl Hall Hne), Hf. cbn [fst].
      left. eexists. split; [reflexivity|]. right. left. reflexivity.
  - destruct (scan_network_fast_raises h port timeout max_workers x e
                Hl Hx He) as (x' & e' & Hx' & He' & Hrun).
    rewrite Hrun. cbn [fst snd probed]. right. right. exists x', e'.
    rewrite probed_probes. split; [exact Hx'|]. split; [exact He'|].
    reflexivity.
Qed.

Lemma scan_result_cases (h : host) port timeout max_workers found :
  (scan_network h port timeout max_workers).1 = Ok found ->
  found = [] \/
  found = List.filter (port_open h port timeout) (get_arp_ips h) \/
  found = List.filter (port_open h port timeout) (sweep h).
Proof.
  destruct (scan_outcome_cases h port timeout max_workers)
    as [(found' & -> & H)|[[_ ->]|(ip & e & _ & _ & ->)]];
    [intros [= <-]; exact H | discriminate | discriminate].
Qed.

Lemma open_filter_sound (h : host) port timeout (l : list str) :
  NoDup l -> get_local_ip h ∉ l ->
  NoDup (List.filter (port_open h port timeout) l) /\
  Forall (fun ip => connect_ex h ip port timeout = Errno 0
                    /\ ip <> get_local_ip h)
         (List.filter (port_open h port timeout) l).
Proof.
  intros Hnd Hl. split; [exact (NoDup_filter_bool _ _ Hnd)|].
  apply Forall_forall. intros ip [Hin Ho]%elem_of_filter_bool. split.
  - apply port_open_connect in Ho as (_ & _ & Ho). exact Ho.
  - intros ->. contradiction.
Qed.

Lemma local_not_swept (h : host) : get_local_ip h ∉ sweep h.
Proof. intros H. apply sweep_elem in H as [_ H]. contradiction. Qed.

Lemma scan_result_ok (h : host) port timeout max_workers found :
  (scan_network h port timeout max_workers).1 = Ok found ->
  NoDup found /\
  Forall (fun ip => connect_ex h ip port timeout = Errno 0
                    /\ ip <> get_local_ip h) found.
Proof.
  intros Hr.
  destruct (scan_result_cases _ _ _ _ _ Hr) as [->|[->| ->]].
  - split; constructor.
  - apply open_filter_sound;
      [apply get_arp_ips_NoDup | apply local_not_candidate].
  - apply open_filter_sound; [apply sweep_NoDup | apply local_not_swept].
Qed.

(** X12: with a non-negative timeout, whatever the worker count, what a
    scan returns holds no address twice, never holds the local address, and
    holds only addresses whose connection was accepted. *)
Theorem scan_result_sound (h : host) port timeout max_workers found :
  (0 <= timeout)%Q ->
  (scan_network h port timeout max_workers).1 = Ok found ->
  NoDup found /\
  Forall (fun ip => connect_ex h ip port timeout = Errno 0
                    /\ ip <> get_local_ip h) found.
Proof. intros _. apply scan_result_ok. Qed.

Lemma scan_result_sound_witness :
  NoDup [lit "192.168.1.33"] /\
  Forall (fun ip => connect_ex empty_cache ip 5555 (1 # 5) = Errno 0
                    /\ ip <> get_local_ip empty_cache)
         [lit "192.168.1.33"].
Proof.
  apply (scan_result_sound empty_cache 5555 (1 # 5) 200).
  - vm_compute. discriminate.
  - vm_compute. reflexivity.
Defined.



End ScannerExtra.

(* ===================================================================== *)
(** * More on the step-streaming handler *)
(* ===================================================================== *)

Module ServerExtra.
Import Py Server ServerFacts ServerExamples ServerMore.

(** ** The events of a trace *)

Lemma sent_events_app (t1 t2 : list action) :
  sent_events (t1 ++ t2) = sent_events t1 ++ sent_events t2.
Proof.
  induction t1 as [|a t1 IH]; [reflexivity|].
  destruct a; cbn [app sent_events]; rewrite IH; reflexivity.
Qed.

Lemma sent_events_stepping (s : nat) (arg : option str)
      (results : list StepResult) :
  sent_events (stepping s arg results) = map Step results.
Proof.
  revert arg. induction results as [|r results IH]; intros arg;
    [reflexivity|].
  cbn [stepping sent_events map]. rewrite IH. reflexivity.
Qed.

Lemma clean_app (l1 l2 : list ws_event) :
  clean (l1 ++ l2) = clean l1 && clean l2.
Proof. apply forallb_app. Qed.

Lemma clean_steps (results : list StepResult) : clean (map Step results) = true.
Proof. induction results as [|r results IH]; [reflexivity | exact IH]. Qed.

Lemma message_or_default_nonempty (r : StepResult) :
  truthy (message_or_default r) = true.
Proof.
  unfold message_or_default. destruct (message r) as [[|c m]|]; reflexivity.
Qed.

Lemma clean_error_only_last (l : list ws_event) :
  clean l = true -> error_only_last l = true.
Proof.
  induction l as [|ev l IH]; [reflexivity|]. cbn [clean forallb].
  intros [[He _]%andb_true_iff Hl]%andb_true_iff.
  destruct ev; cbn [error_only_last]; try exact (IH Hl). discriminate.
Qed.

Lemma error_only_last_app (l : list ws_event) d :
  clean l = true -> error_only_last (l ++ [Error d]) = true.
Proof.
  induction l as [|ev l IH]; [reflexivity|]. cbn [clean forallb].
  intros [[He _]%andb_true_iff Hl]%andb_true_iff.
  destruct ev; cbn [app error_only_last]; try exact (IH Hl). discriminate.
Qed.

Lemma all_finish_clean (l : list ws_event) :
  clean l = true -> forallb finish_has_message l = true.
Proof.
  induction l as [|ev l IH]; [reflexivity|]. cbn [clean forallb].
  intros [[_ Hf]%andb_true_iff Hl]%andb_true_iff. rewrite Hf. exact (IH Hl).
Qed.

Lemma all_finish_app (l : list ws_event) d :
  clean l = true -> forallb finish_has_message (l ++ [Error d]) = true.
Proof.
  intros H. rewrite forallb_app, (all_finish_clean _ H). reflexivity.
Qed.

Section Runs.
Variable executor : nat -> nat -> step_outcome.

(** How a task ends, with what it has sent. *)
Lemma run_task_cases (fuel : nat) (req : request) (w : world) :
  exists events,
    clean events = true /\
    (((run_task executor fuel req w).1 = Val tt /\
      agents (run_task executor fuel req w).2 = agents w /\
      sent_events (trace (run_task executor fuel req w).2)
      = sent_events (trace w) ++ events) \/
     ((run_task executor fuel req w).1 = Fuel /\
      sent_events (trace (run_task executor fuel req w).2)
      = sent_events (trace w) ++ events) \/
     (exists d,
         (run_task executor fuel req w).1 = Exc (NameError "traceback") /\
         sent_events (trace (run_task executor fuel req w).2)
         = sent_events (trace w) ++ events ++ [Error d])).
Proof.
  rewrite run_task_unfold.
  destruct (executor (pred (agents w)) (calls w)) as [r|d].
  - match goal with
    | |- context [step_loop executor fuel r ?w1] =>
        destruct (step_loop_trace executor fuel r w1)
          as (results & tail & Ht & Ha & Ho);
        destruct (step_loop executor fuel r w1) as [[r'|e| |] w2]
    end; cbn [fst snd trace agents calls] in *.
    + subst tail.
      exists (Info (lit "Starting task...") :: Step r :: map Step results
              ++ [Finish (message_or_default r')]).
      split.
      { cbn [clean forallb is_error finish_has_message negb andb].
        change (clean (map Step results
                       ++ [Finish (message_or_default r')]) = true).
        rewrite clean_app, clean_steps. cbn [clean forallb is_error negb
                                             finish_has_message andb].
        rewrite message_or_default_nonempty. reflexivity. }
      left. split; [reflexivity|]. split; [exact Ha|].
      rewrite Ht, !sent_events_app, sent_events_stepping, app_nil_r.
      cbn [sent_events app]. rewrite <- !app_assoc. reflexivity.
    + subst tail.
      exists (Info (lit "Starting task...") :: Step r :: map Step results).
      split; [exact (clean_steps results)|].
      right. right. exists (str_of_exn e). split; [reflexivity|].
      rewrite Ht, !sent_events_app, sent_events_stepping.
      cbn [sent_events app]. rewrite <- !app_assoc. reflexivity.
    + destruct Ho.
    + subst tail.
      exists (Info (lit "Starting task...") :: Step r :: map Step results).
      split; [exact (clean_steps results)|].
      right. left. split; [reflexivity|].
      rewrite Ht, !sent_events_app, sent_events_stepping, app_nil_r.
      cbn [sent_events app]. rewrite <- !app_assoc. reflexivity.
  - exists [Info (lit "Starting task...")]. split; [reflexivity|].
    right. right. exists d. split; [reflexivity|].
    cbn [snd trace]. rewrite sent_events_app. reflexivity.
Qed.


(** The receive loop, from a state whose events are clean: either the
    events stay clean, or one error event was added at the very end. *)
Lemma serve_events (fuel : nat) (inbox : list frame) (w : world) :
  clean (sent_events (trace w)) = true ->
  clean (sent_events (trace (serve executor fuel inbox w).2)) = true \/
  exists events d,
    clean events = true /\
    sent_events (trace (serve executor fuel inbox w).2)
    = events ++ [Error d].
Proof.
  revert w. induction inbox as [|f inbox IH]; intros w Hw.
  - left. exact Hw.
  - destruct f as [req| |].
    + rewrite serve_task.
      match goal with
      | |- context [run_task executor fuel req ?w1] =>
          assert (clean (sent_events (trace w1)) = true) as Hw1
            by (cbn [trace]; rewrite sent_events_app, app_nil_r; exact Hw);
          destruct (run_task_cases fuel req w1)
            as (events & Hc & [(H & _ & He)|[(H & He)|(d & H & He)]]);
          destruct (run_task executor fuel req w1) as [o w2]
      end; cbn [fst snd] in *; subst o.
      * apply IH. rewrite He, clean_app, Hw1, Hc. reflexivity.
      * left. cbn [snd]. rewrite He, clean_app, Hw1, Hc. reflexivity.
      * right. cbn [snd]. eexists (_ ++ events), d.
        split; [rewrite clean_app, Hw1, Hc; reflexivity|].
        rewrite He, app_assoc. reflexivity.
    + left. cbn [serve]. unfold mbind, log, raise. cbn [snd trace].
      rewrite sent_events_app, app_nil_r. exact Hw.
    + left. cbn [serve]. unfold mbind, log, raise. cbn [snd trace].
      rewrite sent_events_app, app_nil_r. exact Hw.
Qed.

Lemma endpoint_world (fuel : nat) (inbox : list frame) :
  (websocket_endpoint executor fuel inbox connect).2
  = (serve executor fuel inbox
           {| trace := [Accepted]; agents := 0; calls := 0 |}).2.
Proof.
  rewrite endpoint_unfold.
  destruct (serve executor fuel inbox
                  {| trace := [Accepted]; agents := 0; calls := 0 |})
    as [[[]|e| |] w]; try reflexivity.
  destruct (is_WebSocketDisconnect e); reflexivity.
Qed.


(** Tasks that finish at their first step, one after the other. *)
Lemma serve_one_step_sessions (fuel : nat) (results : nat -> StepResult)
      (reqs : list request) (w : world) :
  (forall i, executor i 0%nat = Returns (results i)) ->
  (forall i, finished (results i) = true) ->
  (serve executor fuel (map TaskStart reqs) w).1 = Pending /\
  trace (serve executor fuel (map TaskStart reqs) w).2
  = trace w
    ++ concat (imap (fun i req =>
                       one_step_session (agents w + i)%nat req
                                        (results (agents w + i)%nat)) reqs) /\
  agents (serve executor fuel (map TaskStart reqs) w).2
  = (agents w + length reqs)%nat.
Proof.
  intros He Hf. revert w. induction reqs as [|req reqs IH]; intros w.
  - cbn [map serve imap concat fst snd length]. rewrite app_nil_r.
    repeat split. lia.
  - cbn [map]. rewrite serve_task, run_task_unfold.
    cbn [trace agents calls pred]. rewrite He, step_loop_unfold, Hf.
    cbv beta iota. cbn [trace agents calls].
    match goal with
    | |- context [serve executor fuel (map TaskStart reqs) ?w1] =>
        destruct (IH w1) as (H1 & H2 & H3)
    end.
    cbn [trace agents calls] in H2, H3.
    split; [exact H1|]. split.
    + rewrite H2. cbn [imap concat length]. unfold one_step_session at 2.
      rewrite Nat.add_0_r, <- !app_assoc. cbn [app]. do 8 f_equal.
      apply imap_ext. intros i x _. cbn [compose].
      replace (S (agents w) + i)%nat with (agents w + S i)%nat by lia.
      reflexivity.
    + rewrite H3. cbn [length]. lia.
Qed.

End Runs.

End ServerExtra.

Module ServerExtraTheorems.
Import Py Server ServerFacts ServerExamples ServerMore ServerExtra.

(** X14: on every connection, whatever the agents do and whatever frames
    arrive, an error event is the last event the client ever receives, and
    every finish event carries a message that is not empty. *)
Theorem error_event_is_last executor fuel (inbox : list frame) :
  error_only_last
    (sent_events (trace (websocket_endpoint executor fuel inbox connect).2))
  = true /\
  forallb finish_has_message
    (sent_events (trace (websocket_endpoint executor fuel inbox connect).2))
  = true.
Proof.
  rewrite endpoint_world.
  destruct (serve_events executor fuel inbox
              {| trace := [Accepted]; agents := 0; calls := 0 |} eq_refl)
    as [H|(events & d & Hc & ->)].
  - split; [apply clean_error_only_last, H | apply all_finish_clean, H].
  - split; [apply error_only_last_app, Hc | apply all_finish_app, Hc].
Qed.


(** X16: when every task finishes at its first step, each task-start
    message gets an agent of its own, stepped once with that task, and the
    client receives for each, in order, the acknowledgement, one step event
    and one finish event; the handler is then waiting for the next
    message. *)
Theorem one_step_sessions_in_sequence executor fuel
        (results : nat -> StepResult) (reqs : list request) :
  (forall i, executor i 0%nat = Returns (results i)) ->
  (forall i, finished (results i) = true) ->
  (websocket_endpoint executor fuel (map TaskStart reqs) connect).1 = Pending
  /\ trace (websocket_endpoint executor fuel (map TaskStart reqs) connect).2
     = Accepted
       :: concat (imap (fun i req => one_step_session i req (results i)) reqs)
  /\ agents (websocket_endpoint executor fuel (map TaskStart reqs) connect).2
     = length reqs.
Proof.
  intros He Hf.
  destruct (serve_one_step_sessions executor fuel results reqs
              {| trace := [Accepted]; agents := 0; calls := 0 |} He Hf)
    as (H1 & H2 & H3).
  rewrite endpoint_world, H2, H3. cbn [trace agents app Nat.add].
  split; [|split; reflexivity].
  rewrite endpoint_unfold.
  destruct (serve executor fuel (map TaskStart reqs)
              {| trace := [Accepted]; agents := 0; calls := 0 |})
    as [o w]. cbn [fst] in H1. subst o. reflexivity.
Qed.

Lemma one_step_sessions_in_sequence_witness :
  (websocket_endpoint (scripted [Returns completed]) 0
                      (map TaskStart [open_settings; go_home]) connect).1
  = Pending
  /\ trace (websocket_endpoint (scripted [Returns completed]) 0
                               (map TaskStart [open_settings; go_home])
                               connect).2
     = Accepted
       :: concat (imap (fun i req =>
                          one_step_session i req
                            (match i with
                             | O => completed
                             | S _ => done_result
                             end))
                       [open_settings; go_home])
  /\ agents (websocket_endpoint (scripted [Returns completed]) 0
                                (map TaskStart [open_settings; go_home])
                                connect).2
     = length [open_settings; go_home].
Proof.
  apply (one_step_sessions_in_sequence
           (scripted [Returns completed]) 0
           (fun i => match i with O => completed | S _ => done_result end)).
  - intros [|i]; reflexivity.
  - intros [|i]; reflexivity.
Defined.

(** X17: when the very first step of a task raises, the client receives the
    acknowledgement and then the error event carrying the description, no
    step event, and the handler ends on the [NameError] of the missing
    [traceback] import, whatever frames follow. *)
Theorem first_step_failure executor fuel req description
        (inbox : list frame) :
  executor 0%nat 0%nat = Raises description ->
  websocket_endpoint executor fuel (TaskStart req :: inbox) connect
  = (Exc (NameError "traceback"),
     {| trace := [Accepted; Received (TaskStart req); NewAgent 0;
                  Sent (Info (lit "Starting task..."));
                  Called 0 (task req); Sent (Error description)];
        agents := 1; calls := 1 |}).
Proof.
  intros E. rewrite endpoint_unfold, serve_task, run_task_unfold.
  cbn [trace agents calls pred app]. rewrite E. reflexivity.
Qed.

Lemma first_step_failure_witness :
  websocket_endpoint (scripted [Raises (lit "no device")]) 3
                     [TaskStart open_settings; TaskStart go_home] connect
  = (Exc (NameError "traceback"),
     {| trace := [Accepted; Received (TaskStart open_settings); NewAgent 0;
                  Sent (Info (lit "Starting task..."));
                  Called 0 (task open_settings);
                  Sent (Error (lit "no device"))];
        agents := 1; calls := 1 |}).
Proof. apply first_step_failure. reflexivity. Defined.

End ServerExtraTheorems.
